(** * Simple Webhook: the event -> payload -> delivery pipeline

    A shallow embedding of the plugin's [main.ts]: the settings record, the
    two payload shapes, the event router ([handleFileEvent],
    [handleRenameEvent], the workspace triggers, the manual command and the
    ribbon action), the delivery function [sendWebhook] and the settings
    panel (URL field, toggles, send-test button).

    Modelling choices.
    - A JavaScript string is the list of its UTF-16 code units ([N]);
      [lit] embeds a literal.  [trim] strips the ECMAScript WhiteSpace and
      LineTerminator code units from both ends.
    - The host (vault name, clock, [adapter.stat], [fetch], the active file)
      is a record of oracles read by the handlers.
    - A handler is a computation in [M]: it reads the host, threads the
      plugin object ([this]: the settings and the ribbon icon) and returns
      the chronological list of effects it performed ([fetch] calls,
      notices, console errors, settings saves).
    - An [async] handler is run to completion against one plugin object: no
      other handler is dispatched while it awaits, so the settings it reads
      after an [await] are the settings it read before.
    - [JSON.stringify] is kept symbolic: the request body is the JSON value
      under the constructor [JSON_stringify]. *)

From Stdlib Require Import List String Ascii NArith Bool Lia DecimalString.
Import ListNotations.

(** ** JavaScript strings *)

Module JS.

Abbreviation jsstring := (list N) (only parsing).

Definition lit (s : string) : jsstring :=
  map N_of_ascii (list_ascii_of_string s).

(** ECMAScript WhiteSpace (TAB, VT, FF, SP, NBSP, ZWNBSP, category Zs) and
    LineTerminator (LF, CR, LS, PS): what [String.prototype.trim] strips. *)
Definition isWhiteSpace (c : N) : bool :=
  ((9 <=? c) && (c <=? 13)        (* TAB LF VT FF CR *)
   || (c =? 32)                   (* SP *)
   || (c =? 160)                  (* NBSP *)
   || (c =? 5760)                 (* U+1680 *)
   || ((8192 <=? c) && (c <=? 8202)) (* U+2000 .. U+200A *)
   || (c =? 8232) || (c =? 8233)  (* LS PS *)
   || (c =? 8239)                 (* U+202F *)
   || (c =? 8287)                 (* U+205F *)
   || (c =? 12288)                (* U+3000 *)
   || (c =? 65279))%N.            (* U+FEFF *)

Fixpoint trimStart (s : jsstring) : jsstring :=
  match s with
  | [] => []
  | c :: rest => if isWhiteSpace c then trimStart rest else s
  end.

Definition trimEnd (s : jsstring) : jsstring :=
  rev (trimStart (rev s)).

Definition trim (s : jsstring) : jsstring :=
  trimEnd (trimStart s).

(** [!s] for a string, and [s === ""]. *)
Definition isEmpty (s : jsstring) : bool :=
  match s with
  | [] => true
  | _ :: _ => false
  end.

(** [s.split(sep)] for a separator of one code unit.  The result is never
    empty: [split] of the empty string is the one empty segment. *)
Fixpoint split (sep : N) (s : jsstring) : list jsstring :=
  match s with
  | [] => [[]]
  | c :: rest =>
      if (c =? sep)%N then [] :: split sep rest
      else match split sep rest with
           | [] => [[c]]
           | seg :: segs => (c :: seg) :: segs
           end
  end.

(** [`${n}`] for a non-negative integer: its decimal digits. *)
Definition ofNat (n : N) : jsstring :=
  lit (NilZero.string_of_uint (N.to_uint n)).

Definition slash : N := 47.

Arguments trim : simpl never.
Arguments lit : simpl never.
Arguments ofNat : simpl never.

End JS.

Import JS.

(** ** Data model *)

Record WebhookOnSaveSettings := {
  webhookUrl : jsstring;
  enabled : bool;
  showNotices : bool;
  autoMode : bool;
  sendOnFileOpen : bool;
  sendOnLeafChange : bool
}.

Definition DEFAULT_SETTINGS : WebhookOnSaveSettings := {|
  webhookUrl := [];
  enabled := true;
  showNotices := false;
  autoMode := true;
  sendOnFileOpen := false;
  sendOnLeafChange := false
|}.

(** Field assignments [settings.x = v]. *)
Definition set_webhookUrl (v : jsstring) (s : WebhookOnSaveSettings) := {|
  webhookUrl := v;
  enabled := enabled s;
  showNotices := showNotices s;
  autoMode := autoMode s;
  sendOnFileOpen := sendOnFileOpen s;
  sendOnLeafChange := sendOnLeafChange s
|}.

Definition set_enabled (v : bool) (s : WebhookOnSaveSettings) := {|
  webhookUrl := webhookUrl s;
  enabled := v;
  showNotices := showNotices s;
  autoMode := autoMode s;
  sendOnFileOpen := sendOnFileOpen s;
  sendOnLeafChange := sendOnLeafChange s
|}.

Definition set_showNotices (v : bool) (s : WebhookOnSaveSettings) := {|
  webhookUrl := webhookUrl s;
  enabled := enabled s;
  showNotices := v;
  autoMode := autoMode s;
  sendOnFileOpen := sendOnFileOpen s;
  sendOnLeafChange := sendOnLeafChange s
|}.

Definition set_autoMode (v : bool) (s : WebhookOnSaveSettings) := {|
  webhookUrl := webhookUrl s;
  enabled := enabled s;
  showNotices := showNotices s;
  autoMode := v;
  sendOnFileOpen := sendOnFileOpen s;
  sendOnLeafChange := sendOnLeafChange s
|}.

Definition set_sendOnFileOpen (v : bool) (s : WebhookOnSaveSettings) := {|
  webhookUrl := webhookUrl s;
  enabled := enabled s;
  showNotices := showNotices s;
  autoMode := autoMode s;
  sendOnFileOpen := v;
  sendOnLeafChange := sendOnLeafChange s
|}.

Definition set_sendOnLeafChange (v : bool) (s : WebhookOnSaveSettings) := {|
  webhookUrl := webhookUrl s;
  enabled := enabled s;
  showNotices := showNotices s;
  autoMode := autoMode s;
  sendOnFileOpen := sendOnFileOpen s;
  sendOnLeafChange := v
|}.

Inductive VaultEventType := modify | create | delete | rename.

Inductive HookEventType :=
| vault_event (k : VaultEventType)
| file_open
| leaf_change.

Definition VaultEventType_name (k : VaultEventType) : jsstring :=
  match k with
  | modify => lit "modify"
  | create => lit "create"
  | delete => lit "delete"
  | rename => lit "rename"
  end.

Definition HookEventType_name (k : HookEventType) : jsstring :=
  match k with
  | vault_event v => VaultEventType_name v
  | file_open => lit "file-open"
  | leaf_change => lit "leaf-change"
  end.

(** The host's file tree items.  [extension] is optional because the source
    guards it with [?? null]. *)
Record TFile := {
  path : jsstring;
  name : jsstring;
  extension : option jsstring
}.

Record TFolder := {
  folder_path : jsstring;
  folder_name : jsstring
}.

Inductive TAbstractFile :=
| File (f : TFile)
| Folder (d : TFolder).

(** [leaf?.view] seen as [MarkdownView | undefined], and its [file]. *)
Record View := { file : option TFile }.
Record WorkspaceLeaf := { view : option View }.

Record FilePayload := {
  fp_event : HookEventType;
  fp_vaultName : jsstring;
  fp_timestamp : jsstring;
  fp_path : jsstring;
  fp_name : jsstring;
  fp_extension : option jsstring;
  fp_size : option N
}.

Record RenamePayload := {
  rp_vaultName : jsstring;
  rp_timestamp : jsstring;
  oldPath : jsstring;
  newPath : jsstring;
  oldName : jsstring;
  newName : jsstring
}.

(** ** JSON values *)

Inductive JSONValue :=
| JNull
| JString (s : jsstring)
| JNumber (n : N).

(** An object literal: its members in the order they are written. *)
Definition JSONObject := list (string * JSONValue).

Definition orNull {A} (inj : A -> JSONValue) (o : option A) : JSONValue :=
  match o with
  | Some a => inj a
  | None => JNull
  end.

Fixpoint field (k : string) (o : JSONObject) : option JSONValue :=
  match o with
  | [] => None
  | (k', v) :: rest => if String.eqb k k' then Some v else field k rest
  end.

Definition keys (o : JSONObject) : list string := map fst o.

Definition FilePayload_json (p : FilePayload) : JSONObject :=
  [ ("event", JString (HookEventType_name (fp_event p)));
    ("vaultName", JString (fp_vaultName p));
    ("timestamp", JString (fp_timestamp p));
    ("path", JString (fp_path p));
    ("name", JString (fp_name p));
    ("extension", orNull JString (fp_extension p));
    ("size", orNull JNumber (fp_size p)) ]%string.

Definition RenamePayload_json (p : RenamePayload) : JSONObject :=
  [ ("event", JString (VaultEventType_name rename));
    ("vaultName", JString (rp_vaultName p));
    ("timestamp", JString (rp_timestamp p));
    ("oldPath", JString (oldPath p));
    ("newPath", JString (newPath p));
    ("oldName", JString (oldName p));
    ("newName", JString (newName p)) ]%string.

(** ** The host and the effects *)

Inductive JSONText := JSON_stringify (v : JSONObject).

Record Request := {
  url : jsstring;
  method : string;
  headers : list (string * string);
  body : JSONText
}.

Record Response := {
  status : N;
  statusText : jsstring
}.

(** [response.ok]: the status is in the range 200-299. *)
Definition ok (r : Response) : bool :=
  ((200 <=? status r) && (status r <=? 299))%N.

Inductive Settled (A : Type) :=
| Resolved (a : A)
| Rejected (error : jsstring).
Arguments Resolved {A} a.
Arguments Rejected {A} error.

Record Stat := { size : option N }.

Record Host := {
  getName : jsstring;                               (* app.vault.getName() *)
  toISOString : jsstring;                           (* new Date().toISOString() *)
  adapter_stat : jsstring -> Settled (option Stat); (* app.vault.adapter.stat *)
  fetch : Request -> Settled Response;
  getActiveFile : option TFile                      (* app.workspace.getActiveFile() *)
}.

Inductive Effect :=
| Fetch (req : Request)
| NewNotice (message : jsstring)
| ConsoleError (label : string) (error : jsstring)
| SaveData (s : WebhookOnSaveSettings)
| AddRibbonIcon
| RemoveRibbonIcon.

(** The plugin object [this]. *)
Record Plugin := {
  settings : WebhookOnSaveSettings;
  ribbonIconEl : bool
}.

(** ** The handler monad: host reader, plugin state, effect log *)

Definition M (A : Type) : Type := Host -> Plugin -> A * Plugin * list Effect.

Definition ret {A} (a : A) : M A := fun _ p => (a, p, []).

Definition bind {A B} (m : M A) (k : A -> M B) : M B :=
  fun h p =>
    let '(a, p1, t1) := m h p in
    let '(b, p2, t2) := k a h p1 in
    (b, p2, t1 ++ t2).

Declare Scope handler_scope.
Delimit Scope handler_scope with handler.
Notation "x <- c ;; k" := (bind c (fun x => k))
  (at level 61, c at next level, right associativity) : handler_scope.
Notation "c ;; k" := (bind c (fun _ => k))
  (at level 61, right associativity) : handler_scope.
Open Scope handler_scope.

Definition host {A} (read : Host -> A) : M A := fun h p => (read h, p, []).
Definition this_settings : M WebhookOnSaveSettings := fun _ p => (settings p, p, []).
Definition this_ribbonIconEl : M bool := fun _ p => (ribbonIconEl p, p, []).
Definition assign (upd : WebhookOnSaveSettings -> WebhookOnSaveSettings) : M unit :=
  fun _ p => (tt, {| settings := upd (settings p); ribbonIconEl := ribbonIconEl p |}, []).
Definition set_ribbonIconEl (b : bool) : M unit :=
  fun _ p => (tt, {| settings := settings p; ribbonIconEl := b |}, []).
Definition perform (e : Effect) : M unit := fun _ p => (tt, p, [e]).

Definition new_Notice (message : jsstring) : M unit := perform (NewNotice message).
Definition console_error (label : string) (error : jsstring) : M unit :=
  perform (ConsoleError label error).

(** [await fetch(url, init)]: the call is logged, the host settles it. *)
Definition await_fetch (req : Request) : M (Settled Response) :=
  fun h p => (fetch h req, p, [Fetch req]).

Definition when (b : bool) (m : M unit) : M unit := if b then m else ret tt.

(** What a handler did, from a given plugin object. *)
Definition trace {A} (m : M A) (h : Host) (p : Plugin) : list Effect := snd (m h p).
Definition after {A} (m : M A) (h : Host) (p : Plugin) : Plugin := snd (fst (m h p)).
Definition result {A} (m : M A) (h : Host) (p : Plugin) : A := fst (fst (m h p)).


(** The HTTP requests among the effects, in order. *)
Fixpoint posts (t : list Effect) : list Request :=
  match t with
  | [] => []
  | Fetch req :: rest => req :: posts rest
  | _ :: rest => posts rest
  end.

Fixpoint notices (t : list Effect) : list jsstring :=
  match t with
  | [] => []
  | NewNotice m :: rest => m :: notices rest
  | _ :: rest => notices rest
  end.

Fixpoint logged (t : list Effect) : list (string * jsstring) :=
  match t with
  | [] => []
  | ConsoleError l e :: rest => (l, e) :: logged rest
  | _ :: rest => logged rest
  end.

(** ** The plugin: [WebhookOnSavePlugin] *)

Definition missingUrlNotice : jsstring :=
  lit "Simple Webhook: webhook URL not configured.".

(** [!url || url.trim() === ""] *)
Definition urlMissing (u : jsstring) : bool :=
  isEmpty u || isEmpty (trim u).
Arguments urlMissing : simpl never.

Definition shouldSend (manual : bool) : M bool :=
  s <- this_settings ;;
  if negb (enabled s) then ret false
  else if negb manual && negb (autoMode s) then ret false
  else if urlMissing (webhookUrl s) then
    when (showNotices s) (new_Notice missingUrlNotice) ;;
    ret false
  else ret true.

(** [stat?.size ?? null] inside [try], [null] from [catch]. *)
Definition getFileSizeSafe (f : TFile) : M (option N) :=
  r <- host (fun h => adapter_stat h (path f)) ;;
  match r with
  | Resolved (Some st) => ret (size st)
  | Resolved None => ret None
  | Rejected _ => ret None
  end.

(** [parts[parts.length - 1] ?? path] *)
Definition getNameFromPath (p : jsstring) : jsstring :=
  let parts := split slash p in
  match nth_error parts (List.length parts - 1) with
  | Some seg => seg
  | None => p
  end.

Definition postRequest (u : jsstring) (b : JSONObject) : Request := {|
  url := u;
  method := "POST";
  headers := [("Content-Type", "application/json")]%string;
  body := JSON_stringify b
|}.

Definition httpStatusNotice (r : Response) : jsstring :=
  lit "Simple Webhook: HTTP " ++ ofNat (status r) ++ lit " " ++ statusText r.

Definition requestFailedNotice : jsstring :=
  lit "Simple Webhook: request failed (see console).".

Definition sendWebhook (b : JSONObject) : M unit :=
  s <- this_settings ;;
  let u := trim (webhookUrl s) in
  if isEmpty u then ret tt
  else
    r <- await_fetch (postRequest u b) ;;
    s <- this_settings ;;
    match r with
    | Resolved response =>
        when (negb (ok response) && showNotices s)
             (new_Notice (httpStatusNotice response))
    | Rejected error =>
        when (showNotices s)
             (console_error "Simple Webhook error:" error ;;
              new_Notice requestFailedNotice)
    end.

(** The object literal shared by the three builders of a [FilePayload]:
    name, clock, file fields, then the awaited size. *)
Definition buildFilePayload (event : HookEventType) (f : TFile) : M FilePayload :=
  vaultName <- host getName ;;
  timestamp <- host toISOString ;;
  sz <- getFileSizeSafe f ;;
  ret {| fp_event := event;
         fp_vaultName := vaultName;
         fp_timestamp := timestamp;
         fp_path := path f;
         fp_name := name f;
         fp_extension := extension f;
         fp_size := sz |}.

Definition handleFileEvent (event : VaultEventType) (file : TAbstractFile) : M unit :=
  go <- shouldSend false ;;
  if negb go then ret tt
  else match file with
       | Folder _ => ret tt
       | File f =>
           payload <- buildFilePayload (vault_event event) f ;;
           sendWebhook (FilePayload_json payload)
       end.

Definition handleRenameEvent (file : TAbstractFile) (old : jsstring) : M unit :=
  go <- shouldSend false ;;
  if negb go then ret tt
  else match file with
       | Folder _ => ret tt
       | File f =>
           vaultName <- host getName ;;
           timestamp <- host toISOString ;;
           let payload := {| rp_vaultName := vaultName;
                             rp_timestamp := timestamp;
                             oldPath := old;
                             newPath := path f;
                             oldName := getNameFromPath old;
                             newName := name f |} in
           sendWebhook (RenamePayload_json payload)
       end.

Definition handleWorkspaceFileTrigger (label : HookEventType) (f : TFile) : M unit :=
  s <- this_settings ;;
  if negb (enabled s) then ret tt
  else if urlMissing (webhookUrl s) then
    when (showNotices s) (new_Notice missingUrlNotice)
  else
    payload <- buildFilePayload label f ;;
    sendWebhook (FilePayload_json payload).

(** The two listeners of [registerWorkspaceEvents]. *)
Definition onFileOpen (f : option TFile) : M unit :=
  s <- this_settings ;;
  if negb (sendOnFileOpen s) then ret tt
  else match f with
       | None => ret tt
       | Some f' => handleWorkspaceFileTrigger file_open f'
       end.

Definition onActiveLeafChange (leaf : option WorkspaceLeaf) : M unit :=
  s <- this_settings ;;
  if negb (sendOnLeafChange s) then ret tt
  else
    let maybeMarkdown := match leaf with Some l => view l | None => None end in
    match maybeMarkdown with
    | Some v => match file v with
                | Some f => handleWorkspaceFileTrigger leaf_change f
                | None => ret tt
                end
    | None => ret tt
    end.

Definition saveSettings : M unit :=
  s <- this_settings ;;
  perform (SaveData s).

Definition noActiveNoteNotice : jsstring :=
  lit "Simple Webhook: no active note.".
Definition manualSentNotice : jsstring :=
  lit "Simple Webhook: webhook sent for the active note.".

Definition triggerManualWebhook : M unit :=
  active <- host getActiveFile ;;
  match active with
  | None => new_Notice noActiveNoteNotice
  | Some f =>
      go <- shouldSend true ;;
      if negb go then ret tt
      else
        payload <- buildFilePayload (vault_event modify) f ;;
        sendWebhook (FilePayload_json payload) ;;
        new_Notice manualSentNotice
  end.

Definition canUseManualControls : M bool :=
  s <- this_settings ;;
  ret (enabled s && negb (autoMode s)).

Definition refreshManualControls : M unit :=
  can <- canUseManualControls ;;
  icon <- this_ribbonIconEl ;;
  if can then
    when (negb icon) (perform AddRibbonIcon ;; set_ribbonIconEl true)
  else
    when icon (perform RemoveRibbonIcon ;; set_ribbonIconEl false).

(** The command "Send webhook for the active note" ([checkCallback]). *)
Definition sendNowCommand (checking : bool) : M bool :=
  can <- canUseManualControls ;;
  if negb can then ret false
  else
    when (negb checking) triggerManualWebhook ;;
    ret true.

(** The ribbon icon's callback; there is nothing to click without the icon. *)
Definition ribbonClick : M unit :=
  icon <- this_ribbonIconEl ;;
  when icon triggerManualWebhook.

Definition toggleNotice (on : bool) : jsstring :=
  lit "Simple Webhook " ++ (if on then lit "enabled" else lit "disabled").

(** The command "Toggle webhook sending". *)
Definition toggleCommand : M unit :=
  s <- this_settings ;;
  assign (set_enabled (negb (enabled s))) ;;
  saveSettings ;;
  s <- this_settings ;;
  when (showNotices s) (new_Notice (toggleNotice (enabled s))).

(** ** The settings panel: [WebhookOnSaveSettingTab.display] *)

Definition urlOnChange (value : jsstring) : M unit :=
  assign (set_webhookUrl (trim value)) ;;
  saveSettings.

Definition configureFirstNotice : jsstring :=
  lit "Simple Webhook: configure the webhook URL first.".
Definition testSentNotice : jsstring :=
  lit "Simple Webhook: test webhook sent.".
Definition testFailedNotice (r : Response) : jsstring :=
  lit "Simple Webhook: test failed (HTTP " ++ ofNat (status r) ++ lit ").".
Definition testUnableNotice : jsstring :=
  lit "Simple Webhook: unable to send the test webhook.".

Definition testBody (vaultName timestamp : jsstring) : JSONObject :=
  [ ("_event", JString (lit "test"));
    ("message", JString (lit "Simple Webhook test payload"));
    ("vaultName", JString vaultName);
    ("timestamp", JString timestamp) ]%string.

Definition sendTestOnClick : M unit :=
  s <- this_settings ;;
  let u := trim (webhookUrl s) in
  if isEmpty u then new_Notice configureFirstNotice
  else
    vaultName <- host getName ;;
    timestamp <- host toISOString ;;
    r <- await_fetch (postRequest u (testBody vaultName timestamp)) ;;
    match r with
    | Resolved res =>
        if ok res then new_Notice testSentNotice
        else new_Notice (testFailedNotice res)
    | Rejected e =>
        console_error "Simple Webhook test error" e ;;
        new_Notice testUnableNotice
    end.

Definition autoModeOnChange (value : bool) : M unit :=
  assign (set_autoMode value) ;;
  saveSettings ;;
  refreshManualControls.

Definition sendOnFileOpenOnChange (value : bool) : M unit :=
  assign (set_sendOnFileOpen value) ;;
  saveSettings.

Definition sendOnLeafChangeOnChange (value : bool) : M unit :=
  assign (set_sendOnLeafChange value) ;;
  saveSettings.

Definition showNoticesOnChange (value : bool) : M unit :=
  assign (set_showNotices value) ;;
  saveSettings.

(** ** Everything the host can ask of the plugin *)

(** The four vault listeners of [registerVaultEvents]; [rename] alone
    carries the old path. *)
Inductive VaultEvent :=
| on_modify (file : TAbstractFile)
| on_create (file : TAbstractFile)
| on_delete (file : TAbstractFile)
| on_rename (file : TAbstractFile) (old : jsstring).

Definition kindOf (ev : VaultEvent) : VaultEventType :=
  match ev with
  | on_modify _ => modify
  | on_create _ => create
  | on_delete _ => delete
  | on_rename _ _ => rename
  end.

Definition subject (ev : VaultEvent) : TAbstractFile :=
  match ev with
  | on_modify f | on_create f | on_delete f | on_rename f _ => f
  end.

Definition onVaultEvent (ev : VaultEvent) : M unit :=
  match ev with
  | on_modify f => handleFileEvent modify f
  | on_create f => handleFileEvent create f
  | on_delete f => handleFileEvent delete f
  | on_rename f old => handleRenameEvent f old
  end.

Inductive Operation :=
| VaultOp (ev : VaultEvent)
| FileOpenOp (f : option TFile)
| ActiveLeafChangeOp (leaf : option WorkspaceLeaf)
| SendNowCommandOp (checking : bool)
| RibbonClickOp
| ToggleCommandOp
| SendTestOp
| UrlChangeOp (value : jsstring)
| AutoModeChangeOp (value : bool)
| SendOnFileOpenChangeOp (value : bool)
| SendOnLeafChangeChangeOp (value : bool)
| ShowNoticesChangeOp (value : bool).

Definition dispatch (op : Operation) : M unit :=
  match op with
  | VaultOp ev => onVaultEvent ev
  | FileOpenOp f => onFileOpen f
  | ActiveLeafChangeOp leaf => onActiveLeafChange leaf
  | SendNowCommandOp checking => _ <- sendNowCommand checking ;; ret tt
  | RibbonClickOp => ribbonClick
  | ToggleCommandOp => toggleCommand
  | SendTestOp => sendTestOnClick
  | UrlChangeOp v => urlOnChange v
  | AutoModeChangeOp v => autoModeOnChange v
  | SendOnFileOpenChangeOp v => sendOnFileOpenOnChange v
  | SendOnLeafChangeChangeOp v => sendOnLeafChangeOnChange v
  | ShowNoticesChangeOp v => showNoticesOnChange v
  end.

(** ** Vocabulary of the properties *)

(** [segs.join(sep)], the inverse of [split]. *)
Fixpoint join (sep : N) (segs : list jsstring) : jsstring :=
  match segs with
  | [] => []
  | seg :: rest =>
      match rest with
      | [] => seg
      | _ :: _ => seg ++ sep :: join sep rest
      end
  end.

(** [seg] is the final '/'-separated segment of [p]: it holds no '/', and
    [p] is [seg] alone or ends with a '/' followed by [seg]. *)
Definition finalSegment (seg p : jsstring) : Prop :=
  ~ In slash seg /\ (p = seg \/ exists pre, p = pre ++ slash :: seg).

Definition contains (sub s : jsstring) : Prop :=
  exists pre suf, s = pre ++ sub ++ suf.

Definition whitespaceOnly (s : jsstring) : bool := forallb isWhiteSpace s.

(** The size lookup raises, returns no stat, or a stat without a size. *)
Definition sizeLookupFails (h : Host) (f : TFile) : Prop :=
  match adapter_stat h (path f) with
  | Rejected _ => True
  | Resolved None => True
  | Resolved (Some st) => size st = None
  end.

(** The payload of a file event on [f], as the host answers at that time. *)
Definition filePayloadOf (event : HookEventType) (h : Host) (f : TFile) : FilePayload := {|
  fp_event := event;
  fp_vaultName := getName h;
  fp_timestamp := toISOString h;
  fp_path := path f;
  fp_name := name f;
  fp_extension := extension f;
  fp_size := match adapter_stat h (path f) with
             | Resolved (Some st) => size st
             | Resolved None => None
             | Rejected _ => None
             end
|}.


Definition leafOf (f : TFile) : WorkspaceLeaf :=
  {| view := Some {| file := Some f |} |}.

Definition withSettings (upd : WebhookOnSaveSettings -> WebhookOnSaveSettings)
    (p : Plugin) : Plugin :=
  {| settings := upd (settings p); ribbonIconEl := ribbonIconEl p |}.

(** What [sendWebhook] logs after the host has settled the request. *)
Definition report (s : WebhookOnSaveSettings) (r : Settled Response) : list Effect :=
  match r with
  | Resolved response =>
      if negb (ok response) && showNotices s
      then [NewNotice (httpStatusNotice response)]
      else []
  | Rejected error =>
      if showNotices s
      then [ConsoleError "Simple Webhook error:" error; NewNotice requestFailedNotice]
      else []
  end.

(** The effects of one call of [sendWebhook] on body [b]. *)
Definition delivery (h : Host) (s : WebhookOnSaveSettings) (b : JSONObject) : list Effect :=
  let u := trim (webhookUrl s) in
  if isEmpty u then []
  else Fetch (postRequest u b) :: report s (fetch h (postRequest u b)).

(** The optional configuration-missing notice. *)
Definition missingUrlReport (s : WebhookOnSaveSettings) : list Effect :=
  if showNotices s then [NewNotice missingUrlNotice] else [].

(** The invariant of the data model: the stored URL is a trimmed string. *)
Definition urlTrimmed (s : WebhookOnSaveSettings) : Prop :=
  trim (webhookUrl s) = webhookUrl s.

(** No whitespace at the front. *)
Definition headClean (s : jsstring) : Prop :=
  match s with
  | [] => True
  | c :: _ => isWhiteSpace c = false
  end.

(** A session: the operations the host asks for, one after the other, each
    with the host as it is at that time. *)
Fixpoint session (ops : list (Host * Operation)) (p : Plugin) : Plugin :=
  match ops with
  | [] => p
  | (h, op) :: rest => session rest (after (dispatch op) h p)
  end.

(** ** The scenarios of the specification *)

Definition hookUrl : jsstring := lit "https://x.test/hook".

(** URL set, master-enabled, automatic sending on, notices off. *)
Definition scenarioPlugin : Plugin :=
  {| settings := set_webhookUrl hookUrl DEFAULT_SETTINGS; ribbonIconEl := false |}.

Definition noteFile : TFile :=
  {| path := lit "a/b.md"; name := lit "b.md"; extension := Some (lit "md") |}.

Definition movedFile : TFile :=
  {| path := lit "folder/new.md"; name := lit "new.md"; extension := Some (lit "md") |}.

(** A host whose endpoint answers 200 and whose files have 10 bytes. *)
Definition scenarioHost : Host := {|
  getName := lit "My Vault";
  toISOString := lit "2025-11-20T15:17:00.000Z";
  adapter_stat := fun _ => Resolved (Some {| size := Some 10%N |});
  fetch := fun _ => Resolved {| status := 200; statusText := lit "OK" |};
  getActiveFile := Some noteFile
|}.

(** A host without network, whose size lookup raises. *)
Definition offlineHost : Host := {|
  getName := lit "My Vault";
  toISOString := lit "2025-11-20T15:17:00.000Z";
  adapter_stat := fun _ => Rejected (lit "ENOENT");
  fetch := fun _ => Rejected (lit "TypeError: Failed to fetch");
  getActiveFile := Some noteFile
|}.

(** ** Loading, unloading and whole sessions *)

(** What [loadData()] answers: [null], or an object holding some of the
    settings keys. *)
Record PersistedData := {
  d_webhookUrl : option jsstring;
  d_enabled : option bool;
  d_showNotices : option bool;
  d_autoMode : option bool;
  d_sendOnFileOpen : option bool;
  d_sendOnLeafChange : option bool
}.

Definition orElse {A} (o : option A) (d : A) : A :=
  match o with
  | Some a => a
  | None => d
  end.

(** [Object.assign({}, base, data)]: the keys of [data] win, a [null]
    source is skipped. *)
Definition Object_assign (base : WebhookOnSaveSettings) (data : option PersistedData)
    : WebhookOnSaveSettings :=
  match data with
  | None => base
  | Some d => {|
      webhookUrl := orElse (d_webhookUrl d) (webhookUrl base);
      enabled := orElse (d_enabled d) (enabled base);
      showNotices := orElse (d_showNotices d) (showNotices base);
      autoMode := orElse (d_autoMode d) (autoMode base);
      sendOnFileOpen := orElse (d_sendOnFileOpen d) (sendOnFileOpen base);
      sendOnLeafChange := orElse (d_sendOnLeafChange d) (sendOnLeafChange base)
    |}
  end.

(** [loadSettings], given the host's answer to [loadData()]. *)
Definition loadSettings (data : option PersistedData) : M unit :=
  assign (fun _ => Object_assign DEFAULT_SETTINGS data).

(** What [saveData(this.settings)] leaves for the next [loadData()]. *)
Definition stored (s : WebhookOnSaveSettings) : PersistedData := {|
  d_webhookUrl := Some (webhookUrl s);
  d_enabled := Some (enabled s);
  d_showNotices := Some (showNotices s);
  d_autoMode := Some (autoMode s);
  d_sendOnFileOpen := Some (sendOnFileOpen s);
  d_sendOnLeafChange := Some (sendOnLeafChange s)
|}.

(** [onload]: the settings are loaded, the listeners and commands are
    registered (they are [dispatch]), the ribbon icon is refreshed. *)
Definition onload (data : option PersistedData) : M unit :=
  loadSettings data ;;
  refreshManualControls.

Definition onunload : M unit :=
  icon <- this_ribbonIconEl ;;
  when icon (perform RemoveRibbonIcon ;; set_ribbonIconEl false).

(** The plugin object before [onload]: no ribbon icon; its settings are
    overwritten by [loadSettings]. *)
Definition fresh : Plugin :=
  {| settings := DEFAULT_SETTINGS; ribbonIconEl := false |}.

(** The effects of a session, in order. *)
Fixpoint sessionTrace (ops : list (Host * Operation)) (p : Plugin) : list Effect :=
  match ops with
  | [] => []
  | (h, op) :: rest =>
      trace (dispatch op) h p ++ sessionTrace rest (after (dispatch op) h p)
  end.

(** A whole life of the plugin: load, a session, unload. *)
Definition lifetime (data : option PersistedData) (h0 : Host)
    (ops : list (Host * Operation)) (h1 : Host) : list Effect :=
  let p1 := after (onload data) h0 fresh in
  trace (onload data) h0 fresh
    ++ sessionTrace ops p1
    ++ trace onunload h1 (session ops p1).

(** The settings written to disk, in order. *)
Fixpoint saves (t : list Effect) : list WebhookOnSaveSettings :=
  match t with
  | [] => []
  | SaveData s :: rest => s :: saves rest
  | _ :: rest => saves rest
  end.

Fixpoint ribbonAdds (t : list Effect) : nat :=
  match t with
  | [] => 0
  | AddRibbonIcon :: rest => S (ribbonAdds rest)
  | _ :: rest => ribbonAdds rest
  end.

Fixpoint ribbonRemoves (t : list Effect) : nat :=
  match t with
  | [] => 0
  | RemoveRibbonIcon :: rest => S (ribbonRemoves rest)
  | _ :: rest => ribbonRemoves rest
  end.

(** The effects on the plugin's own state: saves and ribbon changes. *)
Definition isBookkeeping (e : Effect) : bool :=
  match e with
  | SaveData _ | AddRibbonIcon | RemoveRibbonIcon => true
  | _ => false
  end.

Definition bookkeeping (t : list Effect) : list Effect := filter isBookkeeping t.

(** The operations that write a setting: the toggle command and the
    fields of the settings panel. *)
Definition writesSettings (op : Operation) : bool :=
  match op with
  | ToggleCommandOp | UrlChangeOp _ | AutoModeChangeOp _
  | SendOnFileOpenChangeOp _ | SendOnLeafChangeChangeOp _
  | ShowNoticesChangeOp _ => true
  | _ => false
  end.

(** The operations the user starts by hand to send something. *)
Definition isManual (op : Operation) : bool :=
  match op with
  | SendNowCommandOp _ | RibbonClickOp | SendTestOp => true
  | _ => false
  end.

(** The three shapes of a request body. *)
Definition bodyShape (h : Host) (b : JSONObject) : Prop :=
  (exists event f, b = FilePayload_json (filePayloadOf event h f))
  \/ (exists f old,
        b = RenamePayload_json
              {| rp_vaultName := getName h;
                 rp_timestamp := toISOString h;
                 oldPath := old;
                 newPath := path f;
                 oldName := getNameFromPath old;
                 newName := name f |})
  \/ b = testBody (getName h) (toISOString h).

Definition vaultOps (evs : list (Host * VaultEvent)) : list (Host * Operation) :=
  map (fun he => (fst he, VaultOp (snd he))) evs.

Definition onFile (ev : VaultEvent) : Prop :=
  match subject ev with
  | File _ => True
  | Folder _ => False
  end.

Definition b2n (b : bool) : nat := if b then 1 else 0.

(** A host whose endpoint answers 500. *)
Definition brokenHost : Host := {|
  getName := lit "My Vault";
  toISOString := lit "2025-11-20T15:17:00.000Z";
  adapter_stat := fun _ => Resolved (Some {| size := Some 10%N |});
  fetch := fun _ => Resolved {| status := 500; statusText := lit "Internal Server Error" |};
  getActiveFile := Some noteFile
|}.

Definition notesFolder : TFolder :=
  {| folder_path := lit "notes"; folder_name := lit "notes" |}.

(** ** Strings: [trim] and [split] *)

Section Strings.

Lemma trimStart_whitespaceOnly (s : jsstring) :
  whitespaceOnly s = true -> trimStart s = [].
Proof.
  unfold whitespaceOnly.
  induction s as [| c rest IH]; simpl; intros H; [reflexivity |].
  apply andb_true_iff in H. destruct H as [Hc Hrest].
  rewrite Hc. now apply IH.
Qed.

Lemma trim_whitespaceOnly (s : jsstring) :
  whitespaceOnly s = true -> trim s = [].
Proof.
  intros H. unfold trim. now rewrite (trimStart_whitespaceOnly s H).
Qed.

Lemma trimStart_empty_whitespaceOnly (s : jsstring) :
  trimStart s = [] -> whitespaceOnly s = true.
Proof.
  unfold whitespaceOnly.
  induction s as [| c rest IH]; simpl; intros H; [reflexivity |].
  destruct (isWhiteSpace c); [now apply IH | discriminate].
Qed.

(** A blank trimmed string was blank to begin with. *)
Lemma trim_empty_whitespaceOnly (s : jsstring) :
  trim s = [] -> whitespaceOnly s = true.
Proof.
  unfold trim, trimEnd. intros H.
  apply (f_equal (@rev N)) in H. rewrite rev_involutive in H. simpl in H.
  apply trimStart_empty_whitespaceOnly in H.
  apply trimStart_empty_whitespaceOnly.
  destruct (trimStart s) as [| c rest] eqn:E; [reflexivity |].
  exfalso.
  assert (Hc : isWhiteSpace c = true).
  { unfold whitespaceOnly in H. rewrite forallb_forall in H.
    apply H. rewrite <- in_rev. now left. }
  clear H. induction s as [| d s IH]; simpl in E; [discriminate |].
  destruct (isWhiteSpace d) eqn:Hd; [now apply IH |].
  injection E as -> _. congruence.
Qed.

Lemma headClean_trimStart (s : jsstring) : headClean (trimStart s).
Proof.
  induction s as [| c rest IH]; simpl; [exact I |].
  destruct (isWhiteSpace c) eqn:Hc; [exact IH | exact Hc].
Qed.

Lemma trimStart_headClean (s : jsstring) : headClean s -> trimStart s = s.
Proof.
  destruct s as [| c rest]; simpl; [reflexivity |].
  now intros ->.
Qed.

(** [trimStart] removes a whitespace prefix and nothing else. *)
Lemma trimStart_decompose (s : jsstring) :
  exists w, s = w ++ trimStart s /\ whitespaceOnly w = true.
Proof.
  induction s as [| c rest [w [E Hw]]]; simpl.
  - now exists [].
  - destruct (isWhiteSpace c) eqn:Hc.
    + exists (c :: w). simpl. rewrite <- E. unfold whitespaceOnly in *. simpl.
      now rewrite Hc, Hw.
    + now exists [].
Qed.

Lemma headClean_trimEnd (s : jsstring) : headClean s -> headClean (trimEnd s).
Proof.
  intros Hs. unfold trimEnd.
  destruct (trimStart_decompose (rev s)) as [w [E _]].
  apply (f_equal (@rev N)) in E.
  rewrite rev_involutive, rev_app_distr in E.
  destruct (rev (trimStart (rev s))) as [| c r]; [exact I |].
  rewrite E in Hs. exact Hs.
Qed.

Lemma trimEnd_idempotent (s : jsstring) : trimEnd (trimEnd s) = trimEnd s.
Proof.
  unfold trimEnd. rewrite rev_involutive.
  now rewrite (trimStart_headClean _ (headClean_trimStart (rev s))).
Qed.

(** Trimming a trimmed string changes nothing. *)
Lemma trim_idempotent (s : jsstring) : trim (trim s) = trim s.
Proof.
  unfold trim.
  rewrite (trimStart_headClean (trimEnd (trimStart s))).
  - apply trimEnd_idempotent.
  - apply headClean_trimEnd, headClean_trimStart.
Qed.

(** For a trimmed string, non-empty and non-empty after trimming agree. *)
Lemma trimmed_nonempty (u : jsstring) : trim u = u -> u <> [] -> trim u <> [].
Proof. intros ->. auto. Qed.

Lemma urlMissing_blank (u : jsstring) :
  trim u = [] -> urlMissing u = true.
Proof.
  intros H. unfold urlMissing. rewrite H. simpl. apply orb_true_r.
Qed.

Lemma isEmpty_false (s : jsstring) : s <> [] -> isEmpty s = false.
Proof. destruct s; [congruence | reflexivity]. Qed.

Lemma urlMissing_configured (u : jsstring) :
  trim u <> [] -> urlMissing u = false.
Proof.
  intros H. unfold urlMissing. rewrite (isEmpty_false _ H).
  destruct u; [now elim H | reflexivity].
Qed.

Lemma split_nonempty (sep : N) (s : jsstring) : split sep s <> [].
Proof.
  destruct s as [| c rest]; simpl; [discriminate |].
  destruct (c =? sep)%N; [discriminate |].
  destruct (split sep rest); discriminate.
Qed.

Lemma join_split (sep : N) (s : jsstring) : join sep (split sep s) = s.
Proof.
  induction s as [| c rest IH]; [reflexivity |].
  simpl. destruct (N.eqb_spec c sep) as [-> | _].
  - pose proof (split_nonempty sep rest) as Hne.
    destruct (split sep rest) as [| seg segs]; [now elim Hne |].
    simpl in *. now rewrite IH.
  - destruct (split sep rest) as [| seg segs]; simpl in *.
    + now rewrite <- IH.
    + destruct segs; simpl in *; now rewrite <- IH.
Qed.

Lemma split_segments_clean (sep : N) (s : jsstring) :
  Forall (fun seg => ~ In sep seg) (split sep s).
Proof.
  induction s as [| c rest IH]; simpl.
  - constructor; [intros [] | constructor].
  - destruct (N.eqb_spec c sep) as [-> | Hc].
    + constructor; [intros [] | exact IH].
    + destruct (split sep rest) as [| seg segs].
      * constructor; [| constructor]. intros [H | []]. congruence.
      * inversion IH as [| ? ? Hseg Hsegs]; subst.
        constructor; [| exact Hsegs].
        intros [H | H]; [congruence | now apply Hseg].
Qed.

Lemma nth_error_last (A : Type) (l : list A) (d : A) :
  l <> [] -> nth_error l (List.length l - 1) = Some (last l d).
Proof.
  induction l as [| a l IH]; [congruence |].
  intros _. destruct l as [| b l]; [reflexivity |].
  replace (List.length (a :: b :: l) - 1) with (S (List.length (b :: l) - 1))
    by (simpl; lia).
  change (nth_error (a :: b :: l) (S (List.length (b :: l) - 1)))
    with (nth_error (b :: l) (List.length (b :: l) - 1)).
  rewrite (IH ltac:(discriminate)). reflexivity.
Qed.

Lemma join_last (sep : N) (segs : list jsstring) :
  segs <> [] ->
  join sep segs = last segs [] \/
  exists pre, join sep segs = pre ++ sep :: last segs [].
Proof.
  induction segs as [| seg rest IH]; [congruence |].
  intros _. destruct rest as [| seg' rest'].
  - left. reflexivity.
  - right. change (join sep (seg :: seg' :: rest'))
      with (seg ++ sep :: join sep (seg' :: rest')).
    change (last (seg :: seg' :: rest') []) with (last (seg' :: rest') []).
    destruct (IH ltac:(discriminate)) as [-> | [pre ->]].
    + now exists seg.
    + exists (seg ++ sep :: pre). now rewrite <- app_assoc.
Qed.

Lemma getNameFromPath_last (p : jsstring) :
  getNameFromPath p = last (split slash p) [].
Proof.
  unfold getNameFromPath. cbv zeta.
  now rewrite (nth_error_last _ _ [] (split_nonempty slash p)).
Qed.

(** [getNameFromPath] returns the final segment of its argument. *)
Lemma getNameFromPath_finalSegment (p : jsstring) :
  finalSegment (getNameFromPath p) p.
Proof.
  rewrite getNameFromPath_last. split.
  - pose proof (split_segments_clean slash p) as Hclean.
    rewrite Forall_forall in Hclean. apply Hclean.
    pose proof (split_nonempty slash p) as Hne.
    destruct (split slash p) as [| seg segs]; [now elim Hne |].
    clear Hclean Hne. revert seg.
    induction segs as [| s' segs IH]; intros s0.
    + now left.
    + right. exact (IH s').
  - pose proof (join_last slash _ (split_nonempty slash p)) as H.
    rewrite join_split in H. exact H.
Qed.

(** The final segment is unique: [finalSegment] pins the result down. *)
Lemma finalSegment_unique (seg1 seg2 p : jsstring) :
  finalSegment seg1 p -> finalSegment seg2 p -> seg1 = seg2.
Proof.
  intros [H1 D1] [H2 D2].
  assert (R1 : exists pre, rev seg1 ++ pre = rev p /\
                           (pre = [] \/ exists q, pre = slash :: q)).
  { destruct D1 as [-> | [pre ->]].
    - exists []. rewrite app_nil_r. auto.
    - exists (slash :: rev pre). rewrite rev_app_distr. simpl.
      rewrite <- app_assoc. simpl. eauto. }
  assert (R2 : exists pre, rev seg2 ++ pre = rev p /\
                           (pre = [] \/ exists q, pre = slash :: q)).
  { destruct D2 as [-> | [pre ->]].
    - exists []. rewrite app_nil_r. auto.
    - exists (slash :: rev pre). rewrite rev_app_distr. simpl.
      rewrite <- app_assoc. simpl. eauto. }
  destruct R1 as [q1 [E1 C1]], R2 as [q2 [E2 C2]].
  rewrite <- E2 in E1. clear E2 D1 D2.
  rewrite in_rev in H1. rewrite in_rev in H2.
  rewrite <- (rev_involutive seg1), <- (rev_involutive seg2). f_equal.
  revert E1 H1 H2. generalize (rev seg1) (rev seg2). clear seg1 seg2.
  induction l as [| a l IH]; intros [| b l'] E H1 H2; simpl in *.
  - reflexivity.
  - destruct C1 as [-> | [q ->]]; [discriminate |].
    injection E as <- _. elim H2. now left.
  - destruct C2 as [-> | [q ->]]; [discriminate |].
    injection E as -> _. elim H1. now left.
  - injection E as -> E. f_equal. apply IH; tauto.
Qed.

End Strings.

(** ** Symbolic execution of the handlers *)

Section Handlers.

Variable h : Host.
Variable p : Plugin.

Let s := settings p.

Lemma shouldSend_run (manual : bool) :
  shouldSend manual h p =
  (enabled s && (manual || autoMode s) && negb (urlMissing (webhookUrl s)),
   p,
   if enabled s && (manual || autoMode s) && urlMissing (webhookUrl s)
   then missingUrlReport s else []).
Proof.
  subst s. destruct p as [[u en sn am fo lc] icon].
  unfold shouldSend, missingUrlReport, bind, this_settings, when,
    new_Notice, perform, ret. cbn.
  destruct en, manual, am, (urlMissing u), sn; reflexivity.
Qed.

Lemma buildFilePayload_run (event : HookEventType) (f : TFile) :
  buildFilePayload event f h p = (filePayloadOf event h f, p, []).
Proof.
  unfold buildFilePayload, getFileSizeSafe, filePayloadOf, bind, host, ret. cbn.
  destruct (adapter_stat h (path f)) as [[st |] | e]; reflexivity.
Qed.

Lemma sendWebhook_run (b : JSONObject) :
  sendWebhook b h p = (tt, p, delivery h s b).
Proof.
  subst s.
  unfold sendWebhook, delivery, report, bind, this_settings, await_fetch,
    when, new_Notice, console_error, perform, ret. cbn.
  destruct (isEmpty (trim (webhookUrl (settings p)))); [reflexivity |].
  destruct (fetch h _) as [r | e]; cbn.
  - destruct (negb (ok r) && showNotices (settings p)); reflexivity.
  - destruct (showNotices (settings p)); reflexivity.
Qed.

End Handlers.

Arguments shouldSend : simpl never.
Arguments buildFilePayload : simpl never.
Arguments sendWebhook : simpl never.
Arguments delivery : simpl never.

Ltac run :=
  unfold trace, after, result, dispatch, onVaultEvent, handleFileEvent,
    handleRenameEvent, handleWorkspaceFileTrigger, onFileOpen,
    onActiveLeafChange, triggerManualWebhook, sendNowCommand, ribbonClick,
    canUseManualControls, bind;
  repeat (rewrite ?shouldSend_run, ?buildFilePayload_run, ?sendWebhook_run;
          cbn -[trim]).

Section Posts.

Variable h : Host.
Variable s : WebhookOnSaveSettings.

Lemma posts_app (t1 t2 : list Effect) : posts (t1 ++ t2) = posts t1 ++ posts t2.
Proof.
  induction t1 as [| e t1 IH]; [reflexivity |].
  destruct e; simpl; now rewrite IH.
Qed.

Lemma posts_report (r : Settled Response) : posts (report s r) = [].
Proof.
  destruct r as [r | e]; simpl.
  - destruct (negb (ok r) && showNotices s); reflexivity.
  - destruct (showNotices s); reflexivity.
Qed.

Lemma posts_missingUrlReport : posts (missingUrlReport s) = [].
Proof. unfold missingUrlReport. destruct (showNotices s); reflexivity. Qed.

Lemma posts_delivery (b : JSONObject) :
  posts (delivery h s b) =
  if isEmpty (trim (webhookUrl s)) then []
  else [postRequest (trim (webhookUrl s)) b].
Proof.
  unfold delivery.
  destruct (isEmpty (trim (webhookUrl s))); [reflexivity |].
  simpl. now rewrite posts_report.
Qed.

End Posts.

Section Traces.

Variable h : Host.
Variable p : Plugin.

Let s := settings p.

Lemma handleFileEvent_run (event : VaultEventType) (file : TAbstractFile) :
  handleFileEvent event file h p =
  (tt, p,
   if enabled s && autoMode s then
     if urlMissing (webhookUrl s) then missingUrlReport s
     else match file with
          | File f =>
              delivery h s (FilePayload_json (filePayloadOf (vault_event event) h f))
          | Folder _ => []
          end
   else []).
Proof.
  subst s. run.
  destruct (enabled (settings p)), (autoMode (settings p)),
    (urlMissing (webhookUrl (settings p))); cbn;
    try rewrite app_nil_r; try reflexivity.
  destruct file; run; reflexivity.
Qed.

Lemma handleRenameEvent_run (file : TAbstractFile) (old : jsstring) :
  handleRenameEvent file old h p =
  (tt, p,
   if enabled s && autoMode s then
     if urlMissing (webhookUrl s) then missingUrlReport s
     else match file with
          | File f =>
              delivery h s
                (RenamePayload_json
                   {| rp_vaultName := getName h;
                      rp_timestamp := toISOString h;
                      oldPath := old;
                      newPath := path f;
                      oldName := getNameFromPath old;
                      newName := name f |})
          | Folder _ => []
          end
   else []).
Proof.
  subst s. run.
  destruct (enabled (settings p)), (autoMode (settings p)),
    (urlMissing (webhookUrl (settings p))); cbn;
    try rewrite app_nil_r; try reflexivity.
  destruct file; run; reflexivity.
Qed.

Lemma handleWorkspaceFileTrigger_run (label : HookEventType) (f : TFile) :
  handleWorkspaceFileTrigger label f h p =
  (tt, p,
   if enabled s then
     if urlMissing (webhookUrl s) then missingUrlReport s
     else delivery h s (FilePayload_json (filePayloadOf label h f))
   else []).
Proof.
  subst s. run. unfold this_settings, missingUrlReport, when, new_Notice, perform, ret.
  destruct (enabled (settings p)), (urlMissing (webhookUrl (settings p)));
    run; try reflexivity.
  destruct (showNotices (settings p)); reflexivity.
Qed.

Lemma triggerManualWebhook_run :
  triggerManualWebhook h p =
  (tt, p,
   match getActiveFile h with
   | None => [NewNotice noActiveNoteNotice]
   | Some f =>
       if enabled s then
         if urlMissing (webhookUrl s) then missingUrlReport s
         else delivery h s (FilePayload_json (filePayloadOf (vault_event modify) h f))
                ++ [NewNotice manualSentNotice]
       else []
   end).
Proof.
  subst s. run. unfold host, new_Notice, perform.
  destruct (getActiveFile h) as [f |]; [| reflexivity].
  run.
  destruct (enabled (settings p)), (urlMissing (webhookUrl (settings p)));
    run; try rewrite app_nil_r; reflexivity.
Qed.

Lemma sendTestOnClick_run :
  sendTestOnClick h p =
  (tt, p,
   let u := trim (webhookUrl s) in
   if isEmpty u then [NewNotice configureFirstNotice]
   else
     let req := postRequest u (testBody (getName h) (toISOString h)) in
     Fetch req ::
     match fetch h req with
     | Resolved res =>
         if ok res then [NewNotice testSentNotice]
         else [NewNotice (testFailedNotice res)]
     | Rejected e =>
         [ConsoleError "Simple Webhook test error" e; NewNotice testUnableNotice]
     end).
Proof.
  subst s.
  unfold sendTestOnClick, bind, this_settings, host, await_fetch, new_Notice,
    console_error, perform, ret. cbn -[trim].
  destruct (isEmpty (trim (webhookUrl (settings p)))); [reflexivity |].
  cbn -[trim]. destruct (fetch h _) as [r | e]; cbn -[trim]; [| reflexivity].
  destruct (ok r); reflexivity.
Qed.

End Traces.

Arguments handleFileEvent : simpl never.
Arguments handleRenameEvent : simpl never.
Arguments handleWorkspaceFileTrigger : simpl never.
Arguments triggerManualWebhook : simpl never.
Arguments sendTestOnClick : simpl never.

(** ** Which operations reach the network *)

Section Router.

Variable h : Host.
Variable p : Plugin.

Lemma trimStart_head (u r : jsstring) (c : N) :
  trimStart u = c :: r -> isWhiteSpace c = false.
Proof.
  induction u as [| d u IH]; simpl; [discriminate |].
  destruct (isWhiteSpace d) eqn:Hd; [exact IH |].
  intros E. injection E as <- _. exact Hd.
Qed.

(** A non-empty trimmed string is never whitespace only. *)
Lemma trim_not_whitespaceOnly (u : jsstring) :
  trim u <> [] -> whitespaceOnly (trim u) = false.
Proof.
  unfold trim, trimEnd. intros Hne.
  destruct (trimStart (rev (trimStart u))) as [| c r] eqn:E; [now elim Hne |].
  apply trimStart_head in E. unfold whitespaceOnly. simpl.
  rewrite forallb_app. simpl. rewrite E. now rewrite andb_false_r.
Qed.

Lemma in_posts_delivery (b : JSONObject) (req : Request) :
  In req (posts (delivery h (settings p) b)) ->
  req = postRequest (trim (webhookUrl (settings p))) b /\
  trim (webhookUrl (settings p)) <> [].
Proof.
  rewrite posts_delivery.
  destruct (trim (webhookUrl (settings p))) as [| c u]; simpl; [tauto |].
  intros [<- | []]. split; [reflexivity | discriminate].
Qed.

(** Every request an operation issues goes to the trimmed, non-empty
    configured URL; and apart from the send-test button only an enabled
    plugin issues one. *)
Lemma dispatch_posts (op : Operation) (req : Request) :
  In req (posts (trace (dispatch op) h p)) ->
  url req = trim (webhookUrl (settings p)) /\
  trim (webhookUrl (settings p)) <> [] /\
  (op = SendTestOp \/ enabled (settings p) = true).
Proof.
  assert (D : forall b, In req (posts (delivery h (settings p) b)) ->
              url req = trim (webhookUrl (settings p)) /\
              trim (webhookUrl (settings p)) <> []).
  { intros b Hin. apply in_posts_delivery in Hin. destruct Hin as [-> Hne].
    now split. }
  destruct op as [ev | f | leaf | checking | | | | v | v | v | v | v];
    unfold dispatch.
  - (* vault events *)
    destruct ev as [file | file | file | file old]; unfold trace, onVaultEvent;
      rewrite ?handleFileEvent_run, ?handleRenameEvent_run; cbn -[trim];
      destruct (enabled (settings p)), (autoMode (settings p)),
        (urlMissing (webhookUrl (settings p))); cbn -[trim];
      rewrite ?posts_missingUrlReport; try (intros []);
      destruct file; cbn -[trim]; try (intros []);
      intros Hin; apply D in Hin; tauto.
  - (* file-open *)
    unfold trace, onFileOpen, bind, this_settings. cbn -[trim].
    destruct (sendOnFileOpen (settings p)); cbn -[trim]; [| intros []].
    destruct f as [f |]; cbn -[trim]; [| intros []].
    rewrite handleWorkspaceFileTrigger_run. cbn -[trim].
    destruct (enabled (settings p)), (urlMissing (webhookUrl (settings p)));
      cbn -[trim]; rewrite ?posts_missingUrlReport; try (intros []).
    intros Hin; apply D in Hin; tauto.
  - (* active-leaf-change *)
    unfold trace, onActiveLeafChange, bind, this_settings. cbn -[trim].
    destruct (sendOnLeafChange (settings p)); cbn -[trim]; [| intros []].
    destruct leaf as [[[[[f |]] |]] |]; cbn -[trim]; try (intros []).
    rewrite handleWorkspaceFileTrigger_run. cbn -[trim].
    destruct (enabled (settings p)), (urlMissing (webhookUrl (settings p)));
      cbn -[trim]; rewrite ?posts_missingUrlReport; try (intros []).
    intros Hin; apply D in Hin; tauto.
  - (* the manual command *)
    unfold trace, sendNowCommand, canUseManualControls, bind, this_settings,
      when, ret. cbn -[trim].
    destruct (enabled (settings p)) eqn:He; cbn -[trim]; [| intros []].
    destruct (autoMode (settings p)); cbn -[trim]; [intros [] |].
    destruct checking; cbn -[trim]; [intros [] |].
    rewrite triggerManualWebhook_run. cbn -[trim]. rewrite He.
    destruct (getActiveFile h) as [f |]; cbn -[trim]; [| intros []].
    destruct (urlMissing (webhookUrl (settings p))).
    + rewrite !app_nil_r, posts_missingUrlReport. intros [].
    + rewrite !app_nil_r, posts_app. simpl. rewrite app_nil_r.
      intros Hin; apply D in Hin; tauto.
  - (* the ribbon icon *)
    unfold trace, ribbonClick, bind, this_ribbonIconEl, when, ret. cbn -[trim].
    destruct (ribbonIconEl p); cbn -[trim]; [| intros []].
    rewrite triggerManualWebhook_run. cbn -[trim].
    destruct (getActiveFile h) as [f |]; cbn -[trim]; [| intros []].
    destruct (enabled (settings p)); [| intros []].
    destruct (urlMissing (webhookUrl (settings p))).
    + rewrite posts_missingUrlReport. intros [].
    + rewrite posts_app. simpl. rewrite app_nil_r.
      intros Hin; apply D in Hin; tauto.
  - (* the toggle command *)
    unfold trace, toggleCommand, saveSettings, bind, this_settings, assign,
      when, new_Notice, perform, ret. cbn -[trim].
    destruct (showNotices (settings p)); cbn; intros [].
  - (* the send-test button *)
    unfold trace. rewrite sendTestOnClick_run. cbn -[trim].
    destruct (trim (webhookUrl (settings p))) as [| c u]; cbn -[trim];
      [intros [] |].
    destruct (fetch h _) as [r | e]; [destruct (ok r) |];
      (intros [<- | []]; repeat split; [discriminate | now left]).
  - unfold trace, urlOnChange, saveSettings, bind, this_settings, assign,
      perform. cbn -[trim]. intros [].
  - unfold trace, autoModeOnChange, refreshManualControls, canUseManualControls,
      saveSettings, bind, this_settings, this_ribbonIconEl, assign,
      set_ribbonIconEl, when, perform, ret. cbn -[trim].
    destruct (enabled (settings p)), v, (ribbonIconEl p); cbn; intros [].
  - unfold trace, sendOnFileOpenOnChange, saveSettings, bind, this_settings,
      assign, perform. cbn -[trim]. intros [].
  - unfold trace, sendOnLeafChangeOnChange, saveSettings, bind, this_settings,
      assign, perform. cbn -[trim]. intros [].
  - unfold trace, showNoticesOnChange, saveSettings, bind, this_settings,
      assign, perform. cbn -[trim]. intros [].
Qed.

Lemma no_posts (op : Operation) :
  (forall req, ~ In req (posts (trace (dispatch op) h p))) ->
  posts (trace (dispatch op) h p) = [].
Proof.
  destruct (posts (trace (dispatch op) h p)) as [| req l]; [reflexivity |].
  intros H. elim (H req). now left.
Qed.

Lemma blank_url_no_posts (op : Operation) :
  trim (webhookUrl (settings p)) = [] ->
  posts (trace (dispatch op) h p) = [].
Proof.
  intros Hb. apply no_posts. intros req Hin.
  apply dispatch_posts in Hin. tauto.
Qed.

Lemma disabled_no_posts (op : Operation) :
  op <> SendTestOp ->
  enabled (settings p) = false ->
  posts (trace (dispatch op) h p) = [].
Proof.
  intros Hop Hd. apply no_posts. intros req Hin.
  apply dispatch_posts in Hin. destruct Hin as [_ [_ [E | E]]]; congruence.
Qed.

End Router.

(** ** The stored URL stays trimmed *)

Section Invariant.

Variable h : Host.
Variable p : Plugin.

Lemma urlOnChange_trimmed (value : jsstring) :
  urlTrimmed (settings (after (urlOnChange value) h p)).
Proof.
  unfold urlTrimmed, after, urlOnChange, saveSettings, bind, this_settings,
    assign, perform. cbn -[trim]. apply trim_idempotent.
Qed.

(** No operation but the URL field writes the URL. *)
Lemma dispatch_keeps_url (op : Operation) :
  (forall value, op <> UrlChangeOp value) ->
  webhookUrl (settings (after (dispatch op) h p)) = webhookUrl (settings p).
Proof.
  intros Hop.
  destruct op as [ev | f | leaf | checking | | | | v | v | v | v | v];
    unfold after, dispatch.
  - destruct ev as [file | file | file | file old]; unfold onVaultEvent;
      now rewrite ?handleFileEvent_run, ?handleRenameEvent_run.
  - unfold onFileOpen, bind, this_settings. cbn -[trim].
    destruct (sendOnFileOpen (settings p)); cbn -[trim]; [| reflexivity].
    destruct f as [f |]; cbn -[trim]; [| reflexivity].
    now rewrite handleWorkspaceFileTrigger_run.
  - unfold onActiveLeafChange, bind, this_settings. cbn -[trim].
    destruct (sendOnLeafChange (settings p)); cbn -[trim]; [| reflexivity].
    destruct leaf as [[[[[f |]] |]] |]; cbn -[trim]; try reflexivity.
    now rewrite handleWorkspaceFileTrigger_run.
  - unfold sendNowCommand, canUseManualControls, bind, this_settings, when, ret.
    cbn -[trim].
    destruct (enabled (settings p) && negb (autoMode (settings p)));
      cbn -[trim]; [| reflexivity].
    destruct checking; cbn -[trim]; [reflexivity |].
    now rewrite triggerManualWebhook_run.
  - unfold ribbonClick, bind, this_ribbonIconEl, when, ret. cbn -[trim].
    destruct (ribbonIconEl p); cbn -[trim]; [| reflexivity].
    now rewrite triggerManualWebhook_run.
  - unfold toggleCommand, saveSettings, bind, this_settings, assign, when,
      new_Notice, perform, ret. cbn -[trim].
    now destruct (showNotices (settings p)).
  - now rewrite sendTestOnClick_run.
  - now elim (Hop v).
  - unfold autoModeOnChange, refreshManualControls, canUseManualControls,
      saveSettings, bind, this_settings, this_ribbonIconEl, assign,
      set_ribbonIconEl, when, perform, ret. cbn -[trim].
    now destruct (enabled (settings p)), v, (ribbonIconEl p).
  - reflexivity.
  - reflexivity.
  - reflexivity.
Qed.

Lemma dispatch_preserves_urlTrimmed (op : Operation) :
  urlTrimmed (settings p) -> urlTrimmed (settings (after (dispatch op) h p)).
Proof.
  intros Hp.
  assert (Hdec : (exists value, op = UrlChangeOp value)
                 \/ (forall value, op <> UrlChangeOp value)).
  { destruct op; try (right; discriminate). left. now exists value. }
  destruct Hdec as [[value ->] | Hop].
  - apply urlOnChange_trimmed.
  - unfold urlTrimmed. now rewrite (dispatch_keeps_url op Hop).
Qed.

End Invariant.

(** Starting from the default settings, the stored URL is trimmed after
    every session. *)
Lemma session_urlTrimmed (ops : list (Host * Operation)) (p : Plugin) :
  urlTrimmed (settings p) -> urlTrimmed (settings (session ops p)).
Proof.
  revert p. induction ops as [| [h op] rest IH]; intros p Hp; [exact Hp |].
  simpl. apply IH. now apply dispatch_preserves_urlTrimmed.
Qed.

Lemma default_urlTrimmed : urlTrimmed DEFAULT_SETTINGS.
Proof. reflexivity. Qed.

(** ** The bodies of the event requests *)

Section EventBodies.

Variable h : Host.
Variable p : Plugin.

(** A request issued by any operation other than the send-test button
    carries a body with an [event] field and without the [_event] field. *)
Lemma event_requests_unmarked (op : Operation) (req : Request) :
  op <> SendTestOp ->
  In req (posts (trace (dispatch op) h p)) ->
  exists b : JSONObject,
    body req = JSON_stringify b
    /\ field "_event" b = None
    /\ exists k : jsstring, field "event" b = Some (JString k).
Proof.
  intros Hop.
  assert (D : forall b,
             field "_event" b = None ->
             (exists k, field "event" b = Some (JString k)) ->
             In req (posts (delivery h (settings p) b)) ->
             exists b0 : JSONObject,
               body req = JSON_stringify b0
               /\ field "_event" b0 = None
               /\ exists k : jsstring, field "event" b0 = Some (JString k)).
  { intros b Hnone Hev Hin. apply in_posts_delivery in Hin.
    destruct Hin as [-> _]. now exists b. }
  destruct op as [ev | f | leaf | checking | | | | v | v | v | v | v];
    unfold dispatch.
  - destruct ev as [file | file | file | file old]; unfold trace, onVaultEvent;
      rewrite ?handleFileEvent_run, ?handleRenameEvent_run; cbn -[trim];
      destruct (enabled (settings p)), (autoMode (settings p)),
        (urlMissing (webhookUrl (settings p))); cbn -[trim];
      rewrite ?posts_missingUrlReport; try (intros []);
      destruct file; cbn -[trim]; try (intros []);
      (apply D; [reflexivity | eexists; reflexivity]).
  - unfold trace, onFileOpen, bind, this_settings. cbn -[trim].
    destruct (sendOnFileOpen (settings p)); cbn -[trim]; [| intros []].
    destruct f as [f |]; cbn -[trim]; [| intros []].
    rewrite handleWorkspaceFileTrigger_run. cbn -[trim].
    destruct (enabled (settings p)), (urlMissing (webhookUrl (settings p)));
      cbn -[trim]; rewrite ?app_nil_r, ?posts_missingUrlReport; try (intros []).
    apply D; [reflexivity | eexists; reflexivity].
  - unfold trace, onActiveLeafChange, bind, this_settings. cbn -[trim].
    destruct (sendOnLeafChange (settings p)); cbn -[trim]; [| intros []].
    destruct leaf as [[[[[f |]] |]] |]; cbn -[trim]; try (intros []).
    rewrite handleWorkspaceFileTrigger_run. cbn -[trim].
    destruct (enabled (settings p)), (urlMissing (webhookUrl (settings p)));
      cbn -[trim]; rewrite ?app_nil_r, ?posts_missingUrlReport; try (intros []).
    apply D; [reflexivity | eexists; reflexivity].
  - unfold trace, sendNowCommand, canUseManualControls, bind, this_settings,
      when, ret. cbn -[trim].
    destruct (enabled (settings p)) eqn:He; cbn -[trim]; [| intros []].
    destruct (autoMode (settings p)); cbn -[trim]; [intros [] |].
    destruct checking; cbn -[trim]; [intros [] |].
    rewrite triggerManualWebhook_run. cbn -[trim]. rewrite He.
    destruct (getActiveFile h) as [f |]; cbn -[trim]; [| intros []].
    destruct (urlMissing (webhookUrl (settings p))).
    + rewrite !app_nil_r, posts_missingUrlReport. intros [].
    + rewrite !app_nil_r, posts_app. simpl. rewrite app_nil_r.
      apply D; [reflexivity | eexists; reflexivity].
  - unfold trace, ribbonClick, bind, this_ribbonIconEl, when, ret. cbn -[trim].
    destruct (ribbonIconEl p); cbn -[trim]; [| intros []].
    rewrite triggerManualWebhook_run. cbn -[trim].
    destruct (getActiveFile h) as [f |]; cbn -[trim]; [| intros []].
    destruct (enabled (settings p)); [| intros []].
    destruct (urlMissing (webhookUrl (settings p))).
    + rewrite posts_missingUrlReport. intros [].
    + rewrite posts_app. simpl. rewrite app_nil_r.
      apply D; [reflexivity | eexists; reflexivity].
  - unfold trace, toggleCommand, saveSettings, bind, this_settings, assign,
      when, new_Notice, perform, ret. cbn -[trim].
    destruct (showNotices (settings p)); cbn; intros [].
  - now elim Hop.
  - unfold trace, urlOnChange, saveSettings, bind, this_settings, assign,
      perform. cbn -[trim]. intros [].
  - unfold trace, autoModeOnChange, refreshManualControls, canUseManualControls,
      saveSettings, bind, this_settings, this_ribbonIconEl, assign,
      set_ribbonIconEl, when, perform, ret. cbn -[trim].
    destruct (enabled (settings p)), v, (ribbonIconEl p); cbn; intros [].
  - unfold trace, sendOnFileOpenOnChange, saveSettings, bind, this_settings,
      assign, perform. cbn -[trim]. intros [].
  - unfold trace, sendOnLeafChangeOnChange, saveSettings, bind, this_settings,
      assign, perform. cbn -[trim]. intros [].
  - unfold trace, showNoticesOnChange, saveSettings, bind, this_settings,
      assign, perform. cbn -[trim]. intros [].
Qed.

End EventBodies.

(** ** The automatic vault events *)

(** C1. For each of the four automatic vault event kinds (modify, create,
    delete, rename) on a file, when the master enabled flag and the
    automatic-sending flag are true and the configured URL is non-empty
    after trimming, exactly one HTTP request is issued: a POST to the
    trimmed URL with the JSON content type, whose body is the JSON text of
    an object with an [event] field equal to the triggering kind, the
    vault name and the time stamp.  For the three file kinds that object
    is the file payload: its seven keys, with the path, name and extension
    of the file and the size the host reports (null when it reports
    none). *)
Theorem automatic_vault_event_posts_once
    (ev : VaultEvent) (f : TFile) (h : Host) (p : Plugin) :
  subject ev = File f ->
  enabled (settings p) = true ->
  autoMode (settings p) = true ->
  trim (webhookUrl (settings p)) <> [] ->
  exists (req : Request) (b : JSONObject),
    posts (trace (dispatch (VaultOp ev)) h p) = [req]
    /\ url req = trim (webhookUrl (settings p))
    /\ method req = "POST"%string
    /\ headers req = [("Content-Type", "application/json")]%string
    /\ body req = JSON_stringify b
    /\ field "event" b
       = Some (JString match kindOf ev with
                       | modify => lit "modify"
                       | create => lit "create"
                       | delete => lit "delete"
                       | rename => lit "rename"
                       end)
    /\ field "vaultName" b = Some (JString (getName h))
    /\ field "timestamp" b = Some (JString (toISOString h))
    /\ (kindOf ev <> rename ->
        b = FilePayload_json (filePayloadOf (vault_event (kindOf ev)) h f)
        /\ keys b = [ "event"; "vaultName"; "timestamp"; "path"; "name";
                      "extension"; "size" ]%string
        /\ field "path" b = Some (JString (path f))
        /\ field "name" b = Some (JString (name f))
        /\ field "extension" b
           = Some match extension f with
                  | Some e => JString e
                  | None => JNull
                  end
        /\ field "size" b
           = Some match adapter_stat h (path f) with
                  | Resolved (Some {| size := Some n |}) => JNumber n
                  | _ => JNull
                  end).
Proof.
  intros Hf He Ha Hu.
  pose proof (urlMissing_configured _ Hu) as Hm.
  pose proof (isEmpty_false _ Hu) as Hi.
  assert (Hfields : forall k,
    field "extension" (FilePayload_json (filePayloadOf (vault_event k) h f))
      = Some match extension f with
             | Some e => JString e
             | None => JNull
             end
    /\ field "size" (FilePayload_json (filePayloadOf (vault_event k) h f))
       = Some match adapter_stat h (path f) with
              | Resolved (Some {| size := Some n |}) => JNumber n
              | _ => JNull
              end).
  { intros k. split; cbn.
    - now destruct (extension f).
    - now destruct (adapter_stat h (path f)) as [[[[n |]] |] | e]. }
  destruct ev as [file | file | file | file old]; simpl in Hf; subst file;
    unfold trace, dispatch, onVaultEvent;
    rewrite ?handleFileEvent_run, ?handleRenameEvent_run; cbn -[trim];
    rewrite He, Ha, Hm; cbn -[trim]; rewrite posts_delivery, Hi;
    eexists; eexists; (split; [reflexivity |]);
    do 7 (split; [reflexivity |]).
  - intros _. do 4 (split; [reflexivity |]). apply Hfields.
  - intros _. do 4 (split; [reflexivity |]). apply Hfields.
  - intros _. do 4 (split; [reflexivity |]). apply Hfields.
  - intros Hk. now elim Hk.
Qed.

(** The scenario of the specification: "a/b.md" of size 10 is modified. *)
Lemma automatic_vault_event_posts_once_witness :
  subject (on_modify (File noteFile)) = File noteFile /\
  enabled (settings scenarioPlugin) = true /\
  autoMode (settings scenarioPlugin) = true /\
  trim (webhookUrl (settings scenarioPlugin)) <> [] /\
  exists (req : Request) (b : JSONObject),
    posts (trace (dispatch (VaultOp (on_modify (File noteFile)))) scenarioHost scenarioPlugin)
      = [req]
    /\ url req = lit "https://x.test/hook"
    /\ method req = "POST"%string
    /\ body req = JSON_stringify b
    /\ field "event" b = Some (JString (lit "modify"))
    /\ field "path" b = Some (JString (lit "a/b.md"))
    /\ field "name" b = Some (JString (lit "b.md"))
    /\ field "extension" b = Some (JString (lit "md"))
    /\ field "size" b = Some (JNumber 10).
Proof.
  assert (Hu : trim (webhookUrl (settings scenarioPlugin)) <> [])
    by (vm_compute; discriminate).
  repeat (split; [first [reflexivity | exact Hu] |]).
  destruct (automatic_vault_event_posts_once (on_modify (File noteFile)) noteFile
              scenarioHost scenarioPlugin eq_refl eq_refl eq_refl Hu)
    as [req [b [Hposts [Hurl [Hmeth [_ [Hbody [Hev [_ [_ Hfile]]]]]]]]]].
  destruct (Hfile ltac:(discriminate)) as [_ [_ [Hpath [Hname [Hext Hsize]]]]].
  exists req, b.
  split; [exact Hposts |]. split; [exact Hurl |]. split; [exact Hmeth |].
  split; [exact Hbody |]. split; [exact Hev |]. split; [exact Hpath |].
  split; [exact Hname |]. split; [exact Hext | exact Hsize].
Defined.

(** C4. A rename event that produces a payload (the flags are on, the URL
    is set and the renamed item is a file) issues one POST whose body is
    the JSON text of an object carrying the old path handed to the
    handler, the file's new path, the new name of the file, and as old
    name the final '/'-separated segment of the old path. *)
Theorem rename_payload_pairs
    (f : TFile) (old : jsstring) (h : Host) (p : Plugin) :
  enabled (settings p) = true ->
  autoMode (settings p) = true ->
  trim (webhookUrl (settings p)) <> [] ->
  exists (req : Request) (b : JSONObject),
    posts (trace (dispatch (VaultOp (on_rename (File f) old))) h p) = [req]
    /\ url req = trim (webhookUrl (settings p))
    /\ method req = "POST"%string
    /\ headers req = [("Content-Type", "application/json")]%string
    /\ body req = JSON_stringify b
    /\ keys b = [ "event"; "vaultName"; "timestamp"; "oldPath"; "newPath";
                  "oldName"; "newName" ]%string
    /\ field "event" b = Some (JString (lit "rename"))
    /\ field "oldPath" b = Some (JString old)
    /\ field "newPath" b = Some (JString (path f))
    /\ field "oldName" b = Some (JString (getNameFromPath old))
    /\ field "newName" b = Some (JString (name f))
    /\ finalSegment (getNameFromPath old) old.
Proof.
  intros He Ha Hu.
  pose proof (urlMissing_configured _ Hu) as Hm.
  pose proof (isEmpty_false _ Hu) as Hi.
  unfold trace, dispatch, onVaultEvent. rewrite handleRenameEvent_run.
  cbn -[trim]. rewrite He, Ha, Hm. cbn -[trim]. rewrite posts_delivery, Hi.
  eexists. eexists. split; [reflexivity |].
  do 10 (split; [reflexivity |]).
  apply getNameFromPath_finalSegment.
Qed.

(** The scenario of the specification: "old.md" becomes "folder/new.md". *)
Lemma rename_payload_pairs_witness :
  enabled (settings scenarioPlugin) = true /\
  autoMode (settings scenarioPlugin) = true /\
  trim (webhookUrl (settings scenarioPlugin)) <> [] /\
  exists (req : Request) (b : JSONObject),
    posts (trace (dispatch (VaultOp (on_rename (File movedFile) (lit "old.md"))))
             scenarioHost scenarioPlugin)
      = [req]
    /\ method req = "POST"%string
    /\ body req = JSON_stringify b
    /\ field "oldPath" b = Some (JString (lit "old.md"))
    /\ field "newPath" b = Some (JString (lit "folder/new.md"))
    /\ field "oldName" b = Some (JString (lit "old.md"))
    /\ field "newName" b = Some (JString (lit "new.md")).
Proof.
  assert (Hu : trim (webhookUrl (settings scenarioPlugin)) <> [])
    by (vm_compute; discriminate).
  repeat (split; [first [reflexivity | exact Hu] |]).
  destruct (rename_payload_pairs movedFile (lit "old.md")
              scenarioHost scenarioPlugin eq_refl eq_refl Hu)
    as [req [b [Hposts [_ [Hmeth [_ [Hbody [_ [_ [Hop [Hnp [Hon [Hnn _]]]]]]]]]]]]].
  exists req, b. repeat split; assumption.
Defined.

(** ** The send-test button *)

(** C5. Whenever the configured URL is non-empty after trimming, the
    send-test action issues exactly one HTTP request: a POST to the
    trimmed URL whose body is the JSON text of an object holding the
    marker field [_event] with the fixed value "test" and no [event]
    field.  The marker tells it from every event request: a request any
    other operation issues has a body with an [event] field and without
    [_event], as have all file and rename payloads.  What the action does
    is the same whatever the master enabled flag and the automatic-sending
    flag are. *)
Theorem send_test_posts_marker (h : Host) (p : Plugin) :
  trim (webhookUrl (settings p)) <> [] ->
  exists (req : Request) (b : JSONObject),
    posts (trace (dispatch SendTestOp) h p) = [req]
    /\ url req = trim (webhookUrl (settings p))
    /\ method req = "POST"%string
    /\ headers req = [("Content-Type", "application/json")]%string
    /\ body req = JSON_stringify b
    /\ field "_event" b = Some (JString (lit "test"))
    /\ field "event" b = None
    /\ keys b = [ "_event"; "message"; "vaultName"; "timestamp" ]%string
    /\ b = testBody (getName h) (toISOString h)
    /\ (forall (op : Operation) (req' : Request),
          op <> SendTestOp ->
          In req' (posts (trace (dispatch op) h p)) ->
          exists b' : JSONObject,
            body req' = JSON_stringify b'
            /\ field "_event" b' = None
            /\ exists k : jsstring, field "event" b' = Some (JString k))
    /\ (forall fp : FilePayload, field "_event" (FilePayload_json fp) = None)
    /\ (forall rp : RenamePayload, field "_event" (RenamePayload_json rp) = None)
    /\ (forall en am : bool,
          trace (dispatch SendTestOp) h
            (withSettings (fun s => set_autoMode am (set_enabled en s)) p)
          = trace (dispatch SendTestOp) h p).
Proof.
  intros Hu. pose proof (isEmpty_false _ Hu) as Hi.
  exists (postRequest (trim (webhookUrl (settings p)))
            (testBody (getName h) (toISOString h))),
         (testBody (getName h) (toISOString h)).
  split.
  { unfold trace, dispatch. rewrite sendTestOnClick_run. cbn -[trim].
    rewrite Hi. cbn -[trim].
    destruct (fetch h _) as [r | e]; [destruct (ok r) |]; reflexivity. }
  do 8 (split; [reflexivity |]).
  split; [intros op req' Hop Hin; now apply (event_requests_unmarked h p op) |].
  split; [reflexivity |]. split; [reflexivity |].
  intros en am. unfold trace, dispatch. now rewrite !sendTestOnClick_run.
Qed.

(** With the master flag off, the button still posts the marked body. *)
Lemma send_test_posts_marker_witness :
  let p := withSettings (set_enabled false) scenarioPlugin in
  enabled (settings p) = false /\
  trim (webhookUrl (settings p)) <> [] /\
  exists (req : Request) (b : JSONObject),
    posts (trace (dispatch SendTestOp) scenarioHost p) = [req]
    /\ url req = lit "https://x.test/hook"
    /\ method req = "POST"%string
    /\ body req = JSON_stringify b
    /\ field "_event" b = Some (JString (lit "test")).
Proof.
  intros p.
  assert (Hu : trim (webhookUrl (settings p)) <> []) by (vm_compute; discriminate).
  split; [reflexivity |]. split; [exact Hu |].
  destruct (send_test_posts_marker scenarioHost p Hu)
    as [req [b [Hposts [Hurl [Hmeth [_ [Hbody [Hmark _]]]]]]]].
  exists req, b. repeat split; assumption.
Defined.

(** ** The size lookup *)

(** C6. When the size lookup of a file event raises, returns no stat, or
    returns a stat without a size, the payload is still built and sent:
    each path that builds a file payload (the vault file events, the two
    workspace triggers, the manual trigger) issues its one POST, and the
    body sent is the JSON text of the file payload (event, path, name and
    the rest) with the [size] field [null]. *)
Theorem size_lookup_failure_sends_null (f : TFile) (h : Host) (p : Plugin) :
  sizeLookupFails h f ->
  enabled (settings p) = true ->
  trim (webhookUrl (settings p)) <> [] ->
  let sent (event : HookEventType) (t : list Effect) :=
    exists (req : Request) (b : JSONObject),
      posts t = [req]
      /\ url req = trim (webhookUrl (settings p))
      /\ method req = "POST"%string
      /\ headers req = [("Content-Type", "application/json")]%string
      /\ body req = JSON_stringify b
      /\ field "size" b = Some JNull
      /\ field "event" b = Some (JString (HookEventType_name event))
      /\ field "path" b = Some (JString (path f))
      /\ field "name" b = Some (JString (name f))
      /\ keys b = [ "event"; "vaultName"; "timestamp"; "path"; "name";
                    "extension"; "size" ]%string
      /\ b = FilePayload_json (filePayloadOf event h f) in
  (autoMode (settings p) = true ->
     forall k : VaultEventType,
       sent (vault_event k) (trace (handleFileEvent k (File f)) h p))
  /\ (sendOnFileOpen (settings p) = true ->
        sent file_open (trace (dispatch (FileOpenOp (Some f))) h p))
  /\ (sendOnLeafChange (settings p) = true ->
        sent leaf_change (trace (dispatch (ActiveLeafChangeOp (Some (leafOf f)))) h p))
  /\ (getActiveFile h = Some f ->
        sent (vault_event modify) (trace triggerManualWebhook h p)).
Proof.
  intros Hfail He Hu sent.
  pose proof (urlMissing_configured _ Hu) as Hm.
  pose proof (isEmpty_false _ Hu) as Hi.
  assert (Hnull : forall event,
             field "size" (FilePayload_json (filePayloadOf event h f)) = Some JNull).
  { intros event. unfold sizeLookupFails in Hfail. simpl.
    destruct (adapter_stat h (path f)) as [[st |] | e]; try reflexivity.
    now rewrite Hfail. }
  assert (Hsent : forall event t,
             posts t = [postRequest (trim (webhookUrl (settings p)))
                          (FilePayload_json (filePayloadOf event h f))] ->
             sent event t).
  { intros event t Ht. subst sent. cbv beta.
    eexists. eexists. split; [exact Ht |].
    do 4 (split; [reflexivity |]). split; [apply Hnull |].
    repeat split. }
  split; [| split; [| split]].
  - intros Ha k. apply Hsent.
    unfold trace. rewrite handleFileEvent_run. cbn -[trim].
    rewrite He, Ha, Hm. cbn -[trim]. now rewrite posts_delivery, Hi.
  - intros Ho. apply Hsent.
    unfold trace, dispatch, onFileOpen, bind, this_settings. cbn -[trim].
    rewrite Ho. cbn -[trim]. rewrite handleWorkspaceFileTrigger_run.
    cbn -[trim]. rewrite He, Hm, ?app_nil_r. now rewrite posts_delivery, Hi.
  - intros Ho. apply Hsent.
    unfold trace, dispatch, onActiveLeafChange, bind, this_settings. cbn -[trim].
    rewrite Ho. cbn -[trim]. rewrite handleWorkspaceFileTrigger_run.
    cbn -[trim]. rewrite He, Hm, ?app_nil_r. now rewrite posts_delivery, Hi.
  - intros Hact. apply Hsent.
    unfold trace. rewrite triggerManualWebhook_run. cbn -[trim].
    rewrite Hact, He, Hm, posts_app, posts_delivery, Hi. reflexivity.
Qed.

(** On the host whose size lookup raises, a modified note is still posted,
    with a null size. *)
Lemma size_lookup_failure_sends_null_witness :
  sizeLookupFails offlineHost noteFile /\
  enabled (settings scenarioPlugin) = true /\
  autoMode (settings scenarioPlugin) = true /\
  trim (webhookUrl (settings scenarioPlugin)) <> [] /\
  exists (req : Request) (b : JSONObject),
    posts (trace (handleFileEvent modify (File noteFile)) offlineHost scenarioPlugin)
      = [req]
    /\ method req = "POST"%string
    /\ body req = JSON_stringify b
    /\ field "size" b = Some JNull
    /\ field "path" b = Some (JString (lit "a/b.md")).
Proof.
  assert (Hu : trim (webhookUrl (settings scenarioPlugin)) <> [])
    by (vm_compute; discriminate).
  assert (Hf : sizeLookupFails offlineHost noteFile) by exact I.
  repeat (split; [first [reflexivity | exact Hu | exact Hf] |]).
  destruct (size_lookup_failure_sends_null noteFile offlineHost scenarioPlugin
              Hf eq_refl Hu) as [Hvault _].
  destruct (Hvault eq_refl modify)
    as [req [b [Hposts [_ [Hmeth [_ [Hbody [Hsize [_ [Hpath _]]]]]]]]]].
  exists req, b. repeat split; assumption.
Defined.

(** ** The workspace focus triggers *)



(** ** The manual trigger *)



(** ** The master enabled flag *)

(** C2, as stated, fails on the send-test button: with the master enabled
    flag off and a URL configured, the button still posts its test body. *)
Lemma disabled_send_test_still_posts :
  enabled (settings (withSettings (set_enabled false) scenarioPlugin)) = false /\
  posts (trace (dispatch SendTestOp) scenarioHost
           (withSettings (set_enabled false) scenarioPlugin))
    = [postRequest hookUrl
         (testBody (getName scenarioHost) (toISOString scenarioHost))].
Proof. split; vm_compute; reflexivity. Qed.

(** C2, amended. With the master enabled flag off, no operation other than
    the settings panel's send-test action issues an HTTP POST, whatever the
    other flags, the URL, the host and the event are: not the vault event
    handlers, not the workspace focus handlers, not the manual command or
    the ribbon action, not the toggle command nor the settings fields. *)
Theorem disabled_plugin_posts_nothing (op : Operation) (h : Host) (p : Plugin) :
  op <> SendTestOp ->
  enabled (settings p) = false ->
  posts (trace (dispatch op) h p) = [].
Proof.
  intros Hop Hd. now apply disabled_no_posts.
Qed.

Lemma disabled_plugin_posts_nothing_witness :
  VaultOp (on_modify (File noteFile)) <> SendTestOp /\
  enabled (settings (withSettings (set_enabled false) scenarioPlugin)) = false /\
  posts (trace (dispatch (VaultOp (on_modify (File noteFile)))) scenarioHost
           (withSettings (set_enabled false) scenarioPlugin)) = [].
Proof.
  assert (Hop : VaultOp (on_modify (File noteFile)) <> SendTestOp) by discriminate.
  split; [exact Hop |]. split; [reflexivity |].
  exact (disabled_plugin_posts_nothing (VaultOp (on_modify (File noteFile)))
           scenarioHost (withSettings (set_enabled false) scenarioPlugin)
           Hop eq_refl).
Defined.

(** ** The missing URL *)

(** C3. With a configured URL that is empty (or blank after trimming), no
    operation issues an HTTP POST, and a send that has passed its flag checks
    stops at the URL check: its whole effect is the configuration-missing
    notice, shown once when the notices flag is on and not at all when it
    is off.  This holds for the vault events (master and automatic flags
    on), the two workspace triggers (master flag and own toggle on, file
    present) and the manual trigger (master flag on, a note active).  The
    send-test button shows its own configure-the-URL notice, once. *)
Theorem missing_url_aborts_before_network (h : Host) (p : Plugin) :
  trim (webhookUrl (settings p)) = [] ->
  (forall op : Operation, posts (trace (dispatch op) h p) = [])
  /\ (enabled (settings p) = true -> autoMode (settings p) = true ->
        forall ev : VaultEvent,
          trace (dispatch (VaultOp ev)) h p = missingUrlReport (settings p))
  /\ (enabled (settings p) = true -> sendOnFileOpen (settings p) = true ->
        forall f : TFile,
          trace (dispatch (FileOpenOp (Some f))) h p = missingUrlReport (settings p))
  /\ (enabled (settings p) = true -> sendOnLeafChange (settings p) = true ->
        forall f : TFile,
          trace (dispatch (ActiveLeafChangeOp (Some (leafOf f)))) h p
          = missingUrlReport (settings p))
  /\ (enabled (settings p) = true ->
        forall f : TFile, getActiveFile h = Some f ->
          trace triggerManualWebhook h p = missingUrlReport (settings p))
  /\ trace (dispatch SendTestOp) h p = [NewNotice configureFirstNotice]
  /\ notices (missingUrlReport (settings p))
     = (if showNotices (settings p) then [missingUrlNotice] else []).
Proof.
  intros Hb. pose proof (urlMissing_blank _ Hb) as Hm.
  split; [intros op; now apply blank_url_no_posts |].
  split; [| split; [| split; [| split; [| split]]]].
  - intros He Ha ev.
    destruct ev as [file | file | file | file old];
      unfold trace, dispatch, onVaultEvent;
      rewrite ?handleFileEvent_run, ?handleRenameEvent_run; cbn -[trim];
      now rewrite He, Ha, Hm.
  - intros He Ho f.
    unfold trace, dispatch, onFileOpen, bind, this_settings. cbn -[trim].
    rewrite Ho. cbn -[trim]. rewrite handleWorkspaceFileTrigger_run.
    cbn -[trim]. now rewrite He, Hm.
  - intros He Ho f.
    unfold trace, dispatch, onActiveLeafChange, bind, this_settings. cbn -[trim].
    rewrite Ho. cbn -[trim]. rewrite handleWorkspaceFileTrigger_run.
    cbn -[trim]. now rewrite He, Hm.
  - intros He f Hact.
    unfold trace. rewrite triggerManualWebhook_run. cbn -[trim].
    now rewrite Hact, He, Hm.
  - unfold trace, dispatch. rewrite sendTestOnClick_run. cbn -[trim].
    now rewrite Hb.
  - unfold missingUrlReport. now destruct (showNotices (settings p)).
Qed.

(** With the default, empty URL and notices on, a modified note yields the
    one configuration-missing notice and nothing else. *)
Lemma missing_url_aborts_before_network_witness :
  let p := {| settings := set_showNotices true DEFAULT_SETTINGS;
              ribbonIconEl := false |} in
  webhookUrl (settings p) = [] /\
  trim (webhookUrl (settings p)) = [] /\
  enabled (settings p) = true /\
  autoMode (settings p) = true /\
  trace (dispatch (VaultOp (on_modify (File noteFile)))) scenarioHost p
    = [NewNotice missingUrlNotice].
Proof.
  intros p.
  repeat (split; [reflexivity |]).
  exact (proj1 (proj2 (missing_url_aborts_before_network scenarioHost p eq_refl))
           eq_refl eq_refl (on_modify (File noteFile))).
Defined.

(** ** Delivery failures *)

(** C7, as stated, fails on the logging: with the notices flag off, a
    request that raises is attempted once and then nothing is logged. *)
Lemma quiet_failure_is_not_logged :
  let b := FilePayload_json (filePayloadOf (vault_event modify) offlineHost noteFile) in
  showNotices (settings scenarioPlugin) = false /\
  fetch offlineHost (postRequest hookUrl b) = Rejected (lit "TypeError: Failed to fetch") /\
  trace (sendWebhook b) offlineHost scenarioPlugin = [Fetch (postRequest hookUrl b)] /\
  logged (trace (sendWebhook b) offlineHost scenarioPlugin) = [].
Proof. repeat split. Qed.

(** C7, amended. A delivery attempt (URL non-empty after trimming) issues
    exactly one request, whatever its outcome: there is no retry.  On a
    non-success HTTP status the notice holding the status code is shown
    exactly when the notices flag is on, and nothing is logged.  On a
    network or transport exception the exception is caught; the error is
    logged and the generic failure notice is shown exactly when the
    notices flag is on, and with the flag off nothing is logged or shown. *)
Theorem delivery_failure_reporting (b : JSONObject) (h : Host) (p : Plugin) :
  trim (webhookUrl (settings p)) <> [] ->
  let req := postRequest (trim (webhookUrl (settings p))) b in
  let t := trace (sendWebhook b) h p in
  posts t = [req]
  /\ (forall r : Response, fetch h req = Resolved r -> ok r = false ->
        logged t = []
        /\ notices t = (if showNotices (settings p) then [httpStatusNotice r] else [])
        /\ contains (ofNat (status r)) (httpStatusNotice r))
  /\ (forall e : jsstring, fetch h req = Rejected e ->
        logged t = (if showNotices (settings p)
                    then [("Simple Webhook error:"%string, e)] else [])
        /\ notices t = (if showNotices (settings p) then [requestFailedNotice] else [])).
Proof.
  intros Hu req t. pose proof (isEmpty_false _ Hu) as Hi.
  assert (Ht : t = Fetch req :: report (settings p) (fetch h req)).
  { subst t req. unfold trace. rewrite sendWebhook_run. unfold delivery.
    cbn -[trim]. now rewrite Hi. }
  rewrite Ht. split; [| split].
  - simpl. now rewrite posts_report.
  - intros r Hr Hok. rewrite Hr. simpl. rewrite Hok. simpl.
    destruct (showNotices (settings p)); simpl; repeat split;
      exists (lit "Simple Webhook: HTTP "), (lit " " ++ statusText r);
      reflexivity.
  - intros e Hr. rewrite Hr. simpl.
    destruct (showNotices (settings p)); split; reflexivity.
Qed.

(** Offline with notices on: one request, the error logged, one notice. *)
Lemma delivery_failure_reporting_witness :
  let p := withSettings (set_showNotices true) scenarioPlugin in
  let b := FilePayload_json (filePayloadOf (vault_event modify) offlineHost noteFile) in
  trim (webhookUrl (settings p)) <> [] /\
  posts (trace (sendWebhook b) offlineHost p) = [postRequest hookUrl b] /\
  logged (trace (sendWebhook b) offlineHost p)
    = [("Simple Webhook error:"%string, lit "TypeError: Failed to fetch")] /\
  notices (trace (sendWebhook b) offlineHost p) = [requestFailedNotice].
Proof.
  intros p b.
  assert (Hu : trim (webhookUrl (settings p)) <> []) by (vm_compute; discriminate).
  split; [exact Hu |].
  destruct (delivery_failure_reporting b offlineHost p Hu) as [Hposts [_ Hrej]].
  split; [exact Hposts |].
  exact (Hrej (lit "TypeError: Failed to fetch") eq_refl).
Defined.

(** ** Whitespace-only URLs *)

(** C9. A configured URL made of whitespace only counts as unconfigured on
    every send path: no operation issues an HTTP POST, the pre-send guard
    [shouldSend] answers false, the delivery function [sendWebhook] does
    nothing, and the URL field of the settings panel stores such an input
    as the empty string.  Moreover, whatever the settings are, every
    request any operation issues goes to the trimmed configured URL, which
    is never whitespace only. *)
Theorem whitespace_url_never_posts (h : Host) (p : Plugin) :
  (whitespaceOnly (webhookUrl (settings p)) = true ->
     (forall op : Operation, posts (trace (dispatch op) h p) = [])
     /\ (forall manual : bool, result (shouldSend manual) h p = false)
     /\ (forall b : JSONObject, trace (sendWebhook b) h p = []))
  /\ (forall v : jsstring, whitespaceOnly v = true ->
        webhookUrl (settings (after (dispatch (UrlChangeOp v)) h p)) = [])
  /\ (forall (op : Operation) (req : Request),
        In req (posts (trace (dispatch op) h p)) ->
        url req = trim (webhookUrl (settings p))
        /\ whitespaceOnly (url req) = false).
Proof.
  split; [| split].
  - intros Hws. apply trim_whitespaceOnly in Hws.
    pose proof (urlMissing_blank _ Hws) as Hm.
    split; [intros op; now apply blank_url_no_posts |]. split.
    + intros manual. unfold result. rewrite shouldSend_run. cbn -[trim].
      rewrite Hm. now rewrite andb_false_r.
    + intros b. unfold trace. rewrite sendWebhook_run. unfold delivery.
      cbn -[trim]. now rewrite Hws.
  - intros v Hv. unfold after, dispatch, urlOnChange, saveSettings, bind,
      this_settings, assign, perform. cbn -[trim].
    now apply trim_whitespaceOnly.
  - intros op req Hin. apply dispatch_posts in Hin.
    destruct Hin as [Hurl [Hne _]]. split; [exact Hurl |].
    rewrite Hurl. now apply trim_not_whitespaceOnly.
Qed.

(** URL " \t " (space, tab, space): a modified note is not posted. *)
Lemma whitespace_url_never_posts_witness :
  let p := withSettings (set_webhookUrl [32; 9; 32]%N) scenarioPlugin in
  whitespaceOnly (webhookUrl (settings p)) = true /\
  enabled (settings p) = true /\
  autoMode (settings p) = true /\
  posts (trace (dispatch (VaultOp (on_modify (File noteFile)))) scenarioHost p) = [].
Proof.
  intros p.
  repeat (split; [reflexivity |]).
  exact (proj1 (proj1 (whitespace_url_never_posts scenarioHost p) eq_refl)
           (VaultOp (on_modify (File noteFile)))).
Defined.

(** ** Bookkeeping: saves and the ribbon icon *)

Section Bookkeeping.

Variable h : Host.
Variable p : Plugin.

Lemma bookkeeping_app (t1 t2 : list Effect) :
  bookkeeping (t1 ++ t2) = bookkeeping t1 ++ bookkeeping t2.
Proof. apply filter_app. Qed.

Lemma bookkeeping_delivery (s : WebhookOnSaveSettings) (b : JSONObject) :
  bookkeeping (delivery h s b) = [].
Proof.
  unfold delivery. destruct (isEmpty (trim (webhookUrl s))); [reflexivity |].
  cbn -[trim]. destruct (fetch h _) as [r | e]; cbn.
  - now destruct (negb (ok r) && showNotices s).
  - now destruct (showNotices s).
Qed.

Lemma bookkeeping_missingUrlReport (s : WebhookOnSaveSettings) :
  bookkeeping (missingUrlReport s) = [].
Proof. unfold missingUrlReport. now destruct (showNotices s). Qed.

Lemma bookkeeping_none (t : list Effect) :
  bookkeeping t = [] -> saves t = [] /\ ribbonAdds t = 0 /\ ribbonRemoves t = 0.
Proof.
  induction t as [| e t IH]; [now repeat split |].
  destruct e; simpl; try discriminate; exact IH.
Qed.

Lemma triggerManualWebhook_books :
  bookkeeping (snd (triggerManualWebhook h p)) = [].
Proof.
  rewrite triggerManualWebhook_run. cbn -[trim].
  destruct (getActiveFile h) as [f |]; [| reflexivity].
  destruct (enabled (settings p)); [| reflexivity].
  destruct (urlMissing (webhookUrl (settings p))).
  - apply bookkeeping_missingUrlReport.
  - rewrite bookkeeping_app, bookkeeping_delivery. reflexivity.
Qed.

(** An operation that writes no setting leaves the plugin object as it
    is, saves nothing and does not touch the ribbon. *)
Lemma sending_run (op : Operation) :
  writesSettings op = false ->
  after (dispatch op) h p = p /\ bookkeeping (trace (dispatch op) h p) = [].
Proof.
  destruct op as [ev | f | leaf | checking | | | | v | v | v | v | v];
    try discriminate; intros _; unfold after, trace, dispatch.
  - destruct ev as [file | file | file | file old]; unfold onVaultEvent;
      rewrite ?handleFileEvent_run, ?handleRenameEvent_run; cbn -[trim];
      (split; [reflexivity |]);
      destruct (enabled (settings p) && autoMode (settings p)); try reflexivity;
      destruct (urlMissing (webhookUrl (settings p)));
      try apply bookkeeping_missingUrlReport;
      destruct file; try reflexivity; apply bookkeeping_delivery.
  - unfold onFileOpen, bind, this_settings. cbn -[trim].
    destruct (sendOnFileOpen (settings p)); cbn -[trim]; [| now split].
    destruct f as [f |]; cbn -[trim]; [| now split].
    rewrite handleWorkspaceFileTrigger_run. cbn -[trim]. split; [reflexivity |].
    destruct (enabled (settings p)); [| reflexivity].
    destruct (urlMissing (webhookUrl (settings p))); rewrite ?app_nil_r;
      [apply bookkeeping_missingUrlReport | apply bookkeeping_delivery].
  - unfold onActiveLeafChange, bind, this_settings. cbn -[trim].
    destruct (sendOnLeafChange (settings p)); cbn -[trim]; [| now split].
    destruct leaf as [[[[[f |]] |]] |]; cbn -[trim]; try (now split).
    rewrite handleWorkspaceFileTrigger_run. cbn -[trim]. split; [reflexivity |].
    destruct (enabled (settings p)); [| reflexivity].
    destruct (urlMissing (webhookUrl (settings p))); rewrite ?app_nil_r;
      [apply bookkeeping_missingUrlReport | apply bookkeeping_delivery].
  - unfold sendNowCommand, canUseManualControls, bind, this_settings, when, ret.
    cbn -[trim].
    destruct (enabled (settings p) && negb (autoMode (settings p)));
      cbn -[trim]; [| now split].
    destruct checking; cbn -[trim]; [now split |].
    pose proof triggerManualWebhook_books as Hb.
    rewrite triggerManualWebhook_run in *. cbn -[trim] in *.
    split; [reflexivity |]. now rewrite !app_nil_r.
  - unfold ribbonClick, bind, this_ribbonIconEl, when, ret. cbn -[trim].
    destruct (ribbonIconEl p); cbn -[trim]; [| now split].
    pose proof triggerManualWebhook_books as Hb.
    rewrite triggerManualWebhook_run in *. cbn -[trim] in *.
    split; [reflexivity | exact Hb].
  - rewrite sendTestOnClick_run. cbn -[trim]. split; [reflexivity |].
    destruct (isEmpty (trim (webhookUrl (settings p)))); [reflexivity |].
    cbn -[trim]. destruct (fetch h _) as [r | e]; [now destruct (ok r) | reflexivity].
Qed.

End Bookkeeping.

(** ** Writes, saves and the ribbon count *)

Section Writing.

Variable h : Host.
Variable p : Plugin.

(** An operation that writes a setting saves the settings once, as they
    are after the write, and keeps the ribbon count in step with the
    icon. *)
Lemma writing_run (op : Operation) :
  writesSettings op = true ->
  saves (trace (dispatch op) h p) = [settings (after (dispatch op) h p)]
  /\ ribbonAdds (trace (dispatch op) h p) + b2n (ribbonIconEl p)
     = ribbonRemoves (trace (dispatch op) h p)
       + b2n (ribbonIconEl (after (dispatch op) h p)).
Proof.
  destruct op as [ev | f | leaf | checking | | | | v | v | v | v | v];
    try discriminate; intros _; unfold after, trace, dispatch.
  - unfold toggleCommand, saveSettings, bind, this_settings, assign, when,
      new_Notice, perform, ret. cbn -[trim].
    destruct (showNotices (settings p)); cbn; split; (reflexivity || lia).
  - unfold urlOnChange, saveSettings, bind, this_settings, assign, perform.
    cbn -[trim]. split; (reflexivity || lia).
  - unfold autoModeOnChange, refreshManualControls, canUseManualControls,
      saveSettings, bind, this_settings, this_ribbonIconEl, assign,
      set_ribbonIconEl, when, perform, ret. cbn -[trim].
    destruct (enabled (settings p)), v, (ribbonIconEl p); cbn;
      split; (reflexivity || lia).
  - unfold sendOnFileOpenOnChange, saveSettings, bind, this_settings, assign,
      perform. cbn -[trim]. split; (reflexivity || lia).
  - unfold sendOnLeafChangeOnChange, saveSettings, bind, this_settings, assign,
      perform. cbn -[trim]. split; (reflexivity || lia).
  - unfold showNoticesOnChange, saveSettings, bind, this_settings, assign,
      perform. cbn -[trim]. split; (reflexivity || lia).
Qed.

Lemma dispatch_ribbon (op : Operation) :
  ribbonAdds (trace (dispatch op) h p) + b2n (ribbonIconEl p)
  = ribbonRemoves (trace (dispatch op) h p)
    + b2n (ribbonIconEl (after (dispatch op) h p)).
Proof.
  destruct (writesSettings op) eqn:Hw.
  - now apply writing_run.
  - destruct (sending_run h p op Hw) as [-> Hb].
    apply bookkeeping_none in Hb. destruct Hb as [_ [-> ->]]. reflexivity.
Qed.

End Writing.

Lemma saves_app (t1 t2 : list Effect) : saves (t1 ++ t2) = saves t1 ++ saves t2.
Proof.
  induction t1 as [| e t1 IH]; [reflexivity |].
  destruct e; simpl; now rewrite IH.
Qed.

Lemma ribbonAdds_app (t1 t2 : list Effect) :
  ribbonAdds (t1 ++ t2) = ribbonAdds t1 + ribbonAdds t2.
Proof.
  induction t1 as [| e t1 IH]; [reflexivity |].
  destruct e; simpl; now rewrite IH.
Qed.

Lemma ribbonRemoves_app (t1 t2 : list Effect) :
  ribbonRemoves (t1 ++ t2) = ribbonRemoves t1 + ribbonRemoves t2.
Proof.
  induction t1 as [| e t1 IH]; [reflexivity |].
  destruct e; simpl; now rewrite IH.
Qed.

Lemma last_cons_default (A : Type) (l : list A) :
  forall a d : A, last (a :: l) d = last l a.
Proof.
  induction l as [| b l IH]; intros a d; [reflexivity |].
  change (last (a :: b :: l) d) with (last (b :: l) d).
  now rewrite (IH b d), (IH b a).
Qed.

Lemma session_ribbon (ops : list (Host * Operation)) (p : Plugin) :
  ribbonAdds (sessionTrace ops p) + b2n (ribbonIconEl p)
  = ribbonRemoves (sessionTrace ops p) + b2n (ribbonIconEl (session ops p)).
Proof.
  revert p. induction ops as [| [h op] rest IH]; intros p; [reflexivity |].
  simpl. rewrite ribbonAdds_app, ribbonRemoves_app.
  pose proof (dispatch_ribbon h p op) as H1.
  pose proof (IH (after (dispatch op) h p)) as H2. lia.
Qed.

Lemma onload_run (data : option PersistedData) (h : Host) (p : Plugin) :
  let s := Object_assign DEFAULT_SETTINGS data in
  let can := enabled s && negb (autoMode s) in
  onload data h p =
  (tt, {| settings := s; ribbonIconEl := can |},
   if can then (if ribbonIconEl p then [] else [AddRibbonIcon])
   else (if ribbonIconEl p then [RemoveRibbonIcon] else [])).
Proof.
  unfold onload, loadSettings, refreshManualControls, canUseManualControls,
    bind, this_settings, this_ribbonIconEl, assign, set_ribbonIconEl, when,
    perform, ret. cbn -[trim].
  destruct (enabled (Object_assign DEFAULT_SETTINGS data)
            && negb (autoMode (Object_assign DEFAULT_SETTINGS data)));
    destruct (ribbonIconEl p); reflexivity.
Qed.

Lemma onunload_run (h : Host) (p : Plugin) :
  onunload h p =
  (tt, {| settings := settings p; ribbonIconEl := false |},
   if ribbonIconEl p then [RemoveRibbonIcon] else []).
Proof.
  unfold onunload, bind, this_ribbonIconEl, set_ribbonIconEl, when, perform, ret.
  destruct p as [s icon]. cbn. destruct icon; reflexivity.
Qed.

(** ** Settings on disk and in memory *)

(** X1. Persistence round trip: what [saveData(this.settings)] stores,
    [loadSettings] reads back as the very same settings, whatever the
    plugin held before; with nothing stored it yields the defaults. *)
Theorem settings_round_trip (s : WebhookOnSaveSettings) (h : Host) (p : Plugin) :
  settings (after (loadSettings (Some (stored s))) h p) = s
  /\ settings (after (loadSettings None) h p) = DEFAULT_SETTINGS.
Proof.
  unfold after, loadSettings, assign. cbn.
  split; [now destruct s | reflexivity].
Qed.

(** X2. Write-on-change: through any session, the settings last written to
    disk are the settings in memory (the settings the session started
    with, when nothing was written). *)
Theorem last_save_is_current (ops : list (Host * Operation)) (p : Plugin) :
  last (saves (sessionTrace ops p)) (settings p) = settings (session ops p).
Proof.
  revert p. induction ops as [| [h op] rest IH]; intros p; [reflexivity |].
  simpl. rewrite saves_app.
  destruct (writesSettings op) eqn:Hw.
  - destruct (writing_run h p op Hw) as [-> _].
    change ([settings (after (dispatch op) h p)]
              ++ saves (sessionTrace rest (after (dispatch op) h p)))
      with (settings (after (dispatch op) h p)
              :: saves (sessionTrace rest (after (dispatch op) h p))).
    rewrite last_cons_default. apply IH.
  - destruct (sending_run h p op Hw) as [Hp Hb].
    apply bookkeeping_none in Hb. destruct Hb as [-> _].
    rewrite Hp. apply IH.
Qed.

(** X3. Once the URL field has been edited, the stored URL is the trimmed
    input, and it is a trimmed string after every later session. *)
Theorem url_field_keeps_url_trimmed
    (value : jsstring) (ops : list (Host * Operation)) (h : Host) (p : Plugin) :
  webhookUrl (settings (after (dispatch (UrlChangeOp value)) h p)) = trim value
  /\ urlTrimmed (settings (session ops (after (dispatch (UrlChangeOp value)) h p))).
Proof.
  split.
  - reflexivity.
  - apply session_urlTrimmed. apply urlOnChange_trimmed.
Qed.

(** X4. The toggle command flips the master flag and nothing else, saves
    the new settings, announces the new state when notices are on, and a
    second toggle restores the settings. *)
Theorem toggle_command_flips_and_saves (h h' : Host) (p : Plugin) :
  settings (after (dispatch ToggleCommandOp) h p)
    = set_enabled (negb (enabled (settings p))) (settings p)
  /\ trace (dispatch ToggleCommandOp) h p
     = SaveData (set_enabled (negb (enabled (settings p))) (settings p))
       :: (if showNotices (settings p)
           then [NewNotice (toggleNotice (negb (enabled (settings p))))]
           else [])
  /\ settings (after (dispatch ToggleCommandOp) h'
                 (after (dispatch ToggleCommandOp) h p))
     = settings p.
Proof.
  unfold after, trace, dispatch, toggleCommand, saveSettings, bind,
    this_settings, assign, when, new_Notice, perform, ret.
  destruct p as [[u en sn am fo lc] icon]. cbn -[trim].
  destruct sn, en; repeat split.
Qed.

(** ** The ribbon icon *)

(** X5. After [onload] and after every change of the automatic-sending
    field, the ribbon icon is there exactly when the manual controls are
    usable (master flag on, automatic sending off); refreshing again
    changes nothing. *)
Theorem ribbon_follows_manual_controls
    (data : option PersistedData) (v : bool) (h : Host) (p : Plugin) :
  ribbonIconEl (after (dispatch (AutoModeChangeOp v)) h p)
    = enabled (settings p) && negb v
  /\ ribbonIconEl (after (dispatch (AutoModeChangeOp v)) h p)
     = result canUseManualControls h (after (dispatch (AutoModeChangeOp v)) h p)
  /\ ribbonIconEl (after (onload data) h fresh)
     = result canUseManualControls h (after (onload data) h fresh)
  /\ trace refreshManualControls h (after (dispatch (AutoModeChangeOp v)) h p) = [].
Proof.
  split; [| split; [| split]].
  3: { unfold after, result. rewrite onload_run. reflexivity. }
  all: unfold after, result, trace, dispatch, autoModeOnChange,
    refreshManualControls, canUseManualControls, saveSettings, bind,
    this_settings, this_ribbonIconEl, assign, set_ribbonIconEl, when, perform,
    ret; destruct p as [[u en sn am fo lc] icon]; cbn -[trim];
    destruct en, v, icon; reflexivity.
Qed.

(** X6. The toggle command does not refresh the ribbon icon.  Switched off
    in manual mode, the plugin keeps its icon although the manual controls
    are no longer usable: the command is refused, and a click on the icon
    with a note active does nothing at all. *)
Theorem toggle_leaves_ribbon_stale (f : TFile) (h h' : Host) (p : Plugin) :
  ribbonIconEl p = true ->
  enabled (settings p) = true ->
  autoMode (settings p) = false ->
  getActiveFile h' = Some f ->
  let p' := after (dispatch ToggleCommandOp) h p in
  ribbonIconEl p' = true
  /\ result canUseManualControls h' p' = false
  /\ (forall checking, result (sendNowCommand checking) h' p' = false)
  /\ trace (dispatch RibbonClickOp) h' p' = [].
Proof.
  intros Hicon He Ha Hact p'.
  assert (Hp' : p' = {| settings := set_enabled false (settings p);
                        ribbonIconEl := true |}).
  { subst p'. unfold after, dispatch, toggleCommand, saveSettings, bind,
      this_settings, assign, when, new_Notice, perform, ret.
    cbn -[trim]. rewrite He, Hicon. now destruct (showNotices (settings p)). }
  rewrite Hp'. split; [reflexivity |]. split; [reflexivity |].
  split; [intros checking; reflexivity |].
  unfold trace, dispatch, ribbonClick, bind, this_ribbonIconEl, when.
  cbn -[trim]. rewrite triggerManualWebhook_run. cbn -[trim].
  now rewrite Hact.
Qed.

Lemma toggle_leaves_ribbon_stale_witness :
  let p := {| settings := set_autoMode false (settings scenarioPlugin);
              ribbonIconEl := true |} in
  let p' := after (dispatch ToggleCommandOp) scenarioHost p in
  ribbonIconEl p = true /\
  enabled (settings p) = true /\
  autoMode (settings p) = false /\
  getActiveFile scenarioHost = Some noteFile /\
  ribbonIconEl p' = true /\
  enabled (settings p') = false /\
  trace (dispatch RibbonClickOp) scenarioHost p' = [].
Proof.
  intros p p'.
  repeat (split; [reflexivity |]).
  exact (proj2 (proj2 (proj2
           (toggle_leaves_ribbon_stale noteFile scenarioHost scenarioHost p
              eq_refl eq_refl eq_refl eq_refl)))).
Defined.

(** X7. The ribbon icon never leaks and is never doubled: over a whole
    life of the plugin (load, any session, unload) as many icons are
    removed as were added; while the plugin is loaded the icons added
    exceed those removed by one exactly when the plugin holds an icon; and
    after unload it holds none. *)
Theorem ribbon_icon_never_leaks
    (data : option PersistedData) (h0 h1 : Host) (ops : list (Host * Operation)) :
  let p1 := after (onload data) h0 fresh in
  let loaded := trace (onload data) h0 fresh ++ sessionTrace ops p1 in
  ribbonAdds (lifetime data h0 ops h1) = ribbonRemoves (lifetime data h0 ops h1)
  /\ ribbonAdds loaded = ribbonRemoves loaded + b2n (ribbonIconEl (session ops p1))
  /\ ribbonIconEl (after onunload h1 (session ops p1)) = false.
Proof.
  intros p1 loaded.
  assert (Hload : ribbonAdds (trace (onload data) h0 fresh)
                  = ribbonRemoves (trace (onload data) h0 fresh)
                    + b2n (ribbonIconEl p1)).
  { subst p1. unfold trace, after. rewrite onload_run. cbn.
    now destruct (enabled (Object_assign DEFAULT_SETTINGS data)
                  && negb (autoMode (Object_assign DEFAULT_SETTINGS data))). }
  pose proof (session_ribbon ops p1) as Hsess.
  assert (Hloaded : ribbonAdds loaded
                    = ribbonRemoves loaded + b2n (ribbonIconEl (session ops p1))).
  { subst loaded. rewrite ribbonAdds_app, ribbonRemoves_app. lia. }
  split; [| split; [exact Hloaded |]].
  - unfold lifetime. fold p1.
    rewrite app_assoc. fold loaded.
    rewrite ribbonAdds_app, ribbonRemoves_app, Hloaded.
    unfold trace. rewrite onunload_run. cbn.
    now destruct (ribbonIconEl (session ops p1)).
  - unfold after. now rewrite onunload_run.
Qed.

(** X8. The command's availability check has no effect of its own: the
    answer of [checkCallback] is the usability of the manual controls
    whether it is probing or running, a probe performs nothing, and a run
    performs the manual trigger only when the controls are usable. *)
Theorem command_probe_has_no_effect (checking : bool) (h : Host) (p : Plugin) :
  result (sendNowCommand checking) h p
    = enabled (settings p) && negb (autoMode (settings p))
  /\ after (sendNowCommand checking) h p = p
  /\ trace (sendNowCommand checking) h p
     = (if enabled (settings p) && negb (autoMode (settings p)) && negb checking
        then trace triggerManualWebhook h p
        else []).
Proof.
  unfold result, after, trace, sendNowCommand, canUseManualControls, bind,
    this_settings, when, ret. cbn -[trim].
  destruct (enabled (settings p) && negb (autoMode (settings p)));
    cbn -[trim]; [| now repeat split].
  destruct checking; cbn -[trim]; [now repeat split |].
  rewrite triggerManualWebhook_run. cbn -[trim].
  repeat split. now rewrite !app_nil_r.
Qed.

(** ** What goes out, and when *)

Section Outgoing.

Variable h : Host.
Variable p : Plugin.

Lemma delivery_shape (b : JSONObject) :
  bodyShape h b ->
  posts (delivery h (settings p) b) = []
  \/ exists b', bodyShape h b' /\
       posts (delivery h (settings p) b)
       = [postRequest (trim (webhookUrl (settings p))) b'].
Proof.
  intros Hb. rewrite posts_delivery.
  destruct (isEmpty (trim (webhookUrl (settings p)))); [now left |].
  right. now exists b.
Qed.

Lemma triggerManualWebhook_shape :
  posts (snd (triggerManualWebhook h p)) = []
  \/ exists b, bodyShape h b /\
       posts (snd (triggerManualWebhook h p))
       = [postRequest (trim (webhookUrl (settings p))) b].
Proof.
  rewrite triggerManualWebhook_run. cbn -[trim].
  destruct (getActiveFile h) as [f |]; [| now left].
  destruct (enabled (settings p)); [| now left].
  destruct (urlMissing (webhookUrl (settings p))).
  - left. apply posts_missingUrlReport.
  - rewrite posts_app. simpl. rewrite app_nil_r.
    apply delivery_shape. left. now exists (vault_event modify), f.
Qed.

(** What an operation posts: nothing, or one request to the trimmed URL
    whose body has one of the three shapes. *)
Lemma dispatch_posts_shape (op : Operation) :
  posts (trace (dispatch op) h p) = []
  \/ exists b, bodyShape h b /\
       posts (trace (dispatch op) h p)
       = [postRequest (trim (webhookUrl (settings p))) b].
Proof.
  destruct (writesSettings op) eqn:Hw.
  - left. destruct op; try discriminate; unfold trace, dispatch.
    + unfold toggleCommand, saveSettings, bind, this_settings, assign, when,
        new_Notice, perform, ret. cbn -[trim].
      now destruct (showNotices (settings p)).
    + reflexivity.
    + unfold autoModeOnChange, refreshManualControls, canUseManualControls,
        saveSettings, bind, this_settings, this_ribbonIconEl, assign,
        set_ribbonIconEl, when, perform, ret. cbn -[trim].
      now destruct (enabled (settings p)), value, (ribbonIconEl p).
    + reflexivity.
    + reflexivity.
    + reflexivity.
  - destruct op as [ev | f | leaf | checking | | | | v | v | v | v | v];
      try discriminate; unfold trace, dispatch.
    + destruct ev as [file | file | file | file old]; unfold onVaultEvent;
        rewrite ?handleFileEvent_run, ?handleRenameEvent_run; cbn -[trim];
        (destruct (enabled (settings p) && autoMode (settings p)); [| now left]);
        (destruct (urlMissing (webhookUrl (settings p)));
           [left; apply posts_missingUrlReport |]);
        (destruct file as [f | d]; [| now left]);
        apply delivery_shape.
      * left. now exists (vault_event modify), f.
      * left. now exists (vault_event create), f.
      * left. now exists (vault_event delete), f.
      * right. left. now exists f, old.
    + unfold onFileOpen, bind, this_settings. cbn -[trim].
      destruct (sendOnFileOpen (settings p)); cbn -[trim]; [| now left].
      destruct f as [f |]; cbn -[trim]; [| now left].
      rewrite handleWorkspaceFileTrigger_run. cbn -[trim]. rewrite ?app_nil_r.
      destruct (enabled (settings p)); [| now left].
      destruct (urlMissing (webhookUrl (settings p)));
        [left; apply posts_missingUrlReport |].
      apply delivery_shape. left. now exists file_open, f.
    + unfold onActiveLeafChange, bind, this_settings. cbn -[trim].
      destruct (sendOnLeafChange (settings p)); cbn -[trim]; [| now left].
      destruct leaf as [[[[[f |]] |]] |]; cbn -[trim]; try (now left).
      rewrite handleWorkspaceFileTrigger_run. cbn -[trim]. rewrite ?app_nil_r.
      destruct (enabled (settings p)); [| now left].
      destruct (urlMissing (webhookUrl (settings p)));
        [left; apply posts_missingUrlReport |].
      apply delivery_shape. left. now exists leaf_change, f.
    + unfold sendNowCommand, canUseManualControls, bind, this_settings, when, ret.
      cbn -[trim].
      destruct (enabled (settings p) && negb (autoMode (settings p)));
        cbn -[trim]; [| now left].
      destruct checking; cbn -[trim]; [now left |].
      pose proof triggerManualWebhook_shape as Hs.
      rewrite triggerManualWebhook_run in *. cbn -[trim] in *.
      now rewrite !app_nil_r.
    + unfold ribbonClick, bind, this_ribbonIconEl, when, ret. cbn -[trim].
      destruct (ribbonIconEl p); cbn -[trim]; [| now left].
      pose proof triggerManualWebhook_shape as Hs.
      rewrite triggerManualWebhook_run in *. cbn -[trim] in *. exact Hs.
    + rewrite sendTestOnClick_run. cbn -[trim].
      destruct (isEmpty (trim (webhookUrl (settings p)))); [now left |].
      right. exists (testBody (getName h) (toISOString h)).
      split; [now right; right |].
      cbn -[trim]. destruct (fetch h _) as [r | e]; [now destruct (ok r) | reflexivity].
Qed.

End Outgoing.

(** X9. No operation issues more than one HTTP request: there is no retry
    and no second send, whatever the host answers. *)
Theorem at_most_one_request (op : Operation) (h : Host) (p : Plugin) :
  List.length (posts (trace (dispatch op) h p)) <= 1.
Proof.
  destruct (dispatch_posts_shape h p op) as [-> | [b [_ ->]]]; simpl; lia.
Qed.

(** X10. Every request any operation issues is a POST with the single
    header Content-Type: application/json, and its body is a file payload,
    a rename payload or the test body, each carrying the vault name and
    the time stamp of the host. *)
Theorem requests_are_json_posts
    (op : Operation) (req : Request) (h : Host) (p : Plugin) :
  In req (posts (trace (dispatch op) h p)) ->
  method req = "POST"%string
  /\ headers req = [("Content-Type", "application/json")]%string
  /\ exists b : JSONObject,
       body req = JSON_stringify b
       /\ bodyShape h b
       /\ field "vaultName" b = Some (JString (getName h))
       /\ field "timestamp" b = Some (JString (toISOString h)).
Proof.
  intros Hin.
  destruct (dispatch_posts_shape h p op) as [E | [b [Hb E]]]; rewrite E in Hin.
  - elim Hin.
  - destruct Hin as [<- | []]. split; [reflexivity |]. split; [reflexivity |].
    exists b. split; [reflexivity |]. split; [exact Hb |].
    destruct Hb as [[event [f ->]] | [[f [old ->]] | ->]]; now split.
Qed.

Lemma requests_are_json_posts_witness :
  let req := postRequest hookUrl
               (FilePayload_json (filePayloadOf (vault_event modify) scenarioHost noteFile)) in
  In req (posts (trace (dispatch (VaultOp (on_modify (File noteFile))))
                   scenarioHost scenarioPlugin)) /\
  method req = "POST"%string /\
  headers req = [("Content-Type", "application/json")]%string.
Proof.
  intros req.
  assert (Hin : In req (posts (trace (dispatch (VaultOp (on_modify (File noteFile))))
                                 scenarioHost scenarioPlugin)))
    by (vm_compute; now left).
  split; [exact Hin |].
  destruct (requests_are_json_posts (VaultOp (on_modify (File noteFile))) req
              scenarioHost scenarioPlugin Hin) as [Hm [Hh _]].
  now split.
Defined.

(** X11. A vault event on a folder is ignored: nothing is posted and the
    plugin is unchanged.  The URL is checked before the kind of the item,
    so with both flags on and the URL missing the configuration-missing
    notice is still shown (when notices are on); otherwise the handler
    does nothing at all. *)
Theorem folder_events_are_ignored
    (ev : VaultEvent) (d : TFolder) (h : Host) (p : Plugin) :
  subject ev = Folder d ->
  posts (trace (dispatch (VaultOp ev)) h p) = []
  /\ after (dispatch (VaultOp ev)) h p = p
  /\ trace (dispatch (VaultOp ev)) h p
     = (if enabled (settings p) && autoMode (settings p)
           && urlMissing (webhookUrl (settings p))
        then missingUrlReport (settings p)
        else []).
Proof.
  intros Hd.
  destruct ev as [file | file | file | file old]; simpl in Hd; subst file;
    unfold trace, after, dispatch, onVaultEvent;
    rewrite ?handleFileEvent_run, ?handleRenameEvent_run; cbn -[trim];
    destruct (enabled (settings p) && autoMode (settings p));
    cbn -[trim]; try (now repeat split);
    destruct (urlMissing (webhookUrl (settings p)));
    rewrite ?posts_missingUrlReport; now repeat split.
Qed.

Lemma folder_events_are_ignored_witness :
  subject (on_create (Folder notesFolder)) = Folder notesFolder /\
  trace (dispatch (VaultOp (on_create (Folder notesFolder)))) scenarioHost scenarioPlugin = [] /\
  trace (dispatch (VaultOp (on_create (Folder notesFolder)))) scenarioHost
    {| settings := set_showNotices true DEFAULT_SETTINGS; ribbonIconEl := false |}
  = [NewNotice missingUrlNotice].
Proof.
  split; [reflexivity |]. split.
  - exact (proj2 (proj2 (folder_events_are_ignored (on_create (Folder notesFolder))
                           notesFolder scenarioHost scenarioPlugin eq_refl))).
  - exact (proj2 (proj2 (folder_events_are_ignored (on_create (Folder notesFolder))
                           notesFolder scenarioHost
                           {| settings := set_showNotices true DEFAULT_SETTINGS;
                              ribbonIconEl := false |} eq_refl))).
Defined.

(** ** Notices *)

Section Notices.

Variable h : Host.
Variable s : WebhookOnSaveSettings.

Lemma delivery_quiet (b : JSONObject) :
  showNotices s = false ->
  notices (delivery h s b) = [] /\ logged (delivery h s b) = [].
Proof.
  intros Hq. unfold delivery.
  destruct (isEmpty (trim (webhookUrl s))); [now split |].
  cbn -[trim]. destruct (fetch h _) as [r | e]; cbn; rewrite Hq;
    rewrite ?andb_false_r; now split.
Qed.

Lemma missingUrlReport_quiet :
  showNotices s = false -> missingUrlReport s = [].
Proof. unfold missingUrlReport. now intros ->. Qed.

Lemma delivery_silent (b : JSONObject) (req : Request) (r : Response) :
  posts (delivery h s b) = [req] ->
  fetch h req = Resolved r ->
  ok r = true ->
  delivery h s b = [Fetch req].
Proof.
  rewrite posts_delivery. unfold delivery.
  destruct (isEmpty (trim (webhookUrl s))); [discriminate |].
  intros [= <-] Hr Hok. rewrite Hr. cbn. now rewrite Hok.
Qed.

End Notices.

(** X12. The quiet mode is quiet: with the notices flag off, no operation
    other than the three the user starts by hand (the manual command, the
    ribbon icon, the send-test button) shows a notice or writes to the
    console, whatever the host answers. *)
Theorem quiet_mode_silences_automatic_operations
    (op : Operation) (h : Host) (p : Plugin) :
  showNotices (settings p) = false ->
  isManual op = false ->
  notices (trace (dispatch op) h p) = []
  /\ logged (trace (dispatch op) h p) = [].
Proof.
  intros Hq Hop.
  destruct op as [ev | f | leaf | checking | | | | v | v | v | v | v];
    try discriminate; unfold trace, dispatch.
  - destruct ev as [file | file | file | file old]; unfold onVaultEvent;
      rewrite ?handleFileEvent_run, ?handleRenameEvent_run; cbn -[trim];
      rewrite (missingUrlReport_quiet _ Hq);
      (destruct (enabled (settings p) && autoMode (settings p)); [| now split]);
      (destruct (urlMissing (webhookUrl (settings p))); [now split |]);
      (destruct file; [| now split]); now apply delivery_quiet.
  - unfold onFileOpen, bind, this_settings. cbn -[trim].
    destruct (sendOnFileOpen (settings p)); cbn -[trim]; [| now split].
    destruct f as [f |]; cbn -[trim]; [| now split].
    rewrite handleWorkspaceFileTrigger_run. cbn -[trim].
    rewrite ?app_nil_r, (missingUrlReport_quiet _ Hq).
    destruct (enabled (settings p)); [| now split].
    destruct (urlMissing (webhookUrl (settings p))); [now split |].
    now apply delivery_quiet.
  - unfold onActiveLeafChange, bind, this_settings. cbn -[trim].
    destruct (sendOnLeafChange (settings p)); cbn -[trim]; [| now split].
    destruct leaf as [[[[[f |]] |]] |]; cbn -[trim]; try (now split).
    rewrite handleWorkspaceFileTrigger_run. cbn -[trim].
    rewrite ?app_nil_r, (missingUrlReport_quiet _ Hq).
    destruct (enabled (settings p)); [| now split].
    destruct (urlMissing (webhookUrl (settings p))); [now split |].
    now apply delivery_quiet.
  - unfold toggleCommand, saveSettings, bind, this_settings, assign, when,
      new_Notice, perform, ret. cbn -[trim]. rewrite Hq. now split.
  - now split.
  - unfold autoModeOnChange, refreshManualControls, canUseManualControls,
      saveSettings, bind, this_settings, this_ribbonIconEl, assign,
      set_ribbonIconEl, when, perform, ret. cbn -[trim].
    now destruct (enabled (settings p)), v, (ribbonIconEl p).
  - now split.
  - now split.
  - now split.
Qed.

(** Offline and quiet: a modified note is attempted once, silently. *)
Lemma quiet_mode_silences_automatic_operations_witness :
  showNotices (settings scenarioPlugin) = false /\
  isManual (VaultOp (on_modify (File noteFile))) = false /\
  notices (trace (dispatch (VaultOp (on_modify (File noteFile)))) offlineHost scenarioPlugin) = [] /\
  logged (trace (dispatch (VaultOp (on_modify (File noteFile)))) offlineHost scenarioPlugin) = [].
Proof.
  split; [reflexivity |]. split; [reflexivity |].
  exact (quiet_mode_silences_automatic_operations (VaultOp (on_modify (File noteFile)))
           offlineHost scenarioPlugin eq_refl eq_refl).
Defined.

(** X13. A successful automatic delivery is silent even with notices on:
    when the request of a vault event or of a workspace trigger is
    answered with a success status, the request is the operation's only
    effect. *)
Theorem successful_delivery_is_silent
    (op : Operation) (req : Request) (r : Response) (h : Host) (p : Plugin) :
  isManual op = false ->
  posts (trace (dispatch op) h p) = [req] ->
  fetch h req = Resolved r ->
  ok r = true ->
  trace (dispatch op) h p = [Fetch req].
Proof.
  intros Hop.
  destruct op as [ev | f | leaf | checking | | | | v | v | v | v | v];
    try discriminate; unfold trace, dispatch.
  - destruct ev as [file | file | file | file old]; unfold onVaultEvent;
      rewrite ?handleFileEvent_run, ?handleRenameEvent_run; cbn -[trim];
      (destruct (enabled (settings p) && autoMode (settings p)); [| discriminate]);
      (destruct (urlMissing (webhookUrl (settings p)));
         [rewrite posts_missingUrlReport; discriminate |]);
      (destruct file; [| discriminate]); apply delivery_silent.
  - unfold onFileOpen, bind, this_settings. cbn -[trim].
    destruct (sendOnFileOpen (settings p)); cbn -[trim]; [| discriminate].
    destruct f as [f |]; cbn -[trim]; [| discriminate].
    rewrite handleWorkspaceFileTrigger_run. cbn -[trim]. rewrite ?app_nil_r.
    destruct (enabled (settings p)); [| discriminate].
    destruct (urlMissing (webhookUrl (settings p)));
      [rewrite posts_missingUrlReport; discriminate |].
    apply delivery_silent.
  - unfold onActiveLeafChange, bind, this_settings. cbn -[trim].
    destruct (sendOnLeafChange (settings p)); cbn -[trim]; [| discriminate].
    destruct leaf as [[[[[f |]] |]] |]; cbn -[trim]; try discriminate.
    rewrite handleWorkspaceFileTrigger_run. cbn -[trim]. rewrite ?app_nil_r.
    destruct (enabled (settings p)); [| discriminate].
    destruct (urlMissing (webhookUrl (settings p)));
      [rewrite posts_missingUrlReport; discriminate |].
    apply delivery_silent.
  - unfold toggleCommand, saveSettings, bind, this_settings, assign, when,
      new_Notice, perform, ret. cbn -[trim].
    now destruct (showNotices (settings p)).
  - unfold autoModeOnChange, refreshManualControls, canUseManualControls,
      saveSettings, bind, this_settings, this_ribbonIconEl, assign,
      set_ribbonIconEl, when, perform, ret. cbn -[trim].
    now destruct (enabled (settings p)), v, (ribbonIconEl p).
Qed.

Lemma successful_delivery_is_silent_witness :
  let p := withSettings (set_showNotices true) scenarioPlugin in
  let req := postRequest hookUrl
               (FilePayload_json (filePayloadOf (vault_event modify) scenarioHost noteFile)) in
  showNotices (settings p) = true /\
  isManual (VaultOp (on_modify (File noteFile))) = false /\
  posts (trace (dispatch (VaultOp (on_modify (File noteFile)))) scenarioHost p) = [req] /\
  fetch scenarioHost req = Resolved {| status := 200; statusText := lit "OK" |} /\
  ok {| status := 200; statusText := lit "OK" |} = true /\
  trace (dispatch (VaultOp (on_modify (File noteFile)))) scenarioHost p = [Fetch req].
Proof.
  intros p req.
  repeat (split; [reflexivity |]).
  exact (successful_delivery_is_silent (VaultOp (on_modify (File noteFile))) req
           {| status := 200; statusText := lit "OK" |} scenarioHost p
           eq_refl eq_refl eq_refl eq_refl).
Defined.

(** X14. The manual trigger reports "webhook sent" whatever became of the
    request: once a note is active, the master flag is on and the URL is
    set, the sent notice closes the trace after the one request and its
    report; when the request raises and notices are off, the user sees
    the sent notice and nothing else. *)
Theorem manual_send_always_reports_sent (f : TFile) (h : Host) (p : Plugin) :
  getActiveFile h = Some f ->
  enabled (settings p) = true ->
  trim (webhookUrl (settings p)) <> [] ->
  let req := postRequest (trim (webhookUrl (settings p)))
               (FilePayload_json (filePayloadOf (vault_event modify) h f)) in
  trace triggerManualWebhook h p
    = Fetch req :: report (settings p) (fetch h req) ++ [NewNotice manualSentNotice]
  /\ (forall e : jsstring,
        fetch h req = Rejected e ->
        showNotices (settings p) = false ->
        trace triggerManualWebhook h p = [Fetch req; NewNotice manualSentNotice]).
Proof.
  intros Hact He Hu req.
  pose proof (urlMissing_configured _ Hu) as Hm.
  pose proof (isEmpty_false _ Hu) as Hi.
  assert (Ht : trace triggerManualWebhook h p
               = Fetch req :: report (settings p) (fetch h req)
                   ++ [NewNotice manualSentNotice]).
  { unfold trace. rewrite triggerManualWebhook_run. cbn -[trim].
    rewrite Hact, He, Hm. unfold delivery. cbn -[trim]. now rewrite Hi. }
  split; [exact Ht |].
  intros e Hr Hq. rewrite Ht, Hr. cbn. now rewrite Hq.
Qed.

Lemma manual_send_always_reports_sent_witness :
  let p := withSettings (set_autoMode false) scenarioPlugin in
  let req := postRequest hookUrl
               (FilePayload_json (filePayloadOf (vault_event modify) offlineHost noteFile)) in
  getActiveFile offlineHost = Some noteFile /\
  enabled (settings p) = true /\
  trim (webhookUrl (settings p)) <> [] /\
  fetch offlineHost req = Rejected (lit "TypeError: Failed to fetch") /\
  showNotices (settings p) = false /\
  trace triggerManualWebhook offlineHost p = [Fetch req; NewNotice manualSentNotice].
Proof.
  intros p req.
  assert (Hu : trim (webhookUrl (settings p)) <> []) by (vm_compute; discriminate).
  repeat (split; [first [reflexivity | exact Hu] |]).
  exact (proj2 (manual_send_always_reports_sent noteFile offlineHost p eq_refl eq_refl Hu)
           (lit "TypeError: Failed to fetch") eq_refl eq_refl).
Defined.

(** X15. The send-test button always answers with exactly one notice and
    never consults the notices flag; a non-success answer is reported with
    its status code, and a request that raises is logged to the console,
    also when notices are off. *)
Theorem send_test_always_answers (h : Host) (p : Plugin) :
  List.length (notices (trace (dispatch SendTestOp) h p)) = 1
  /\ (forall sn : bool,
        trace (dispatch SendTestOp) h (withSettings (set_showNotices sn) p)
        = trace (dispatch SendTestOp) h p)
  /\ (trim (webhookUrl (settings p)) <> [] ->
      let req := postRequest (trim (webhookUrl (settings p)))
                   (testBody (getName h) (toISOString h)) in
      (forall r : Response, fetch h req = Resolved r -> ok r = false ->
         notices (trace (dispatch SendTestOp) h p) = [testFailedNotice r]
         /\ contains (ofNat (status r)) (testFailedNotice r))
      /\ (forall e : jsstring, fetch h req = Rejected e ->
            logged (trace (dispatch SendTestOp) h p)
              = [("Simple Webhook test error"%string, e)]
            /\ notices (trace (dispatch SendTestOp) h p) = [testUnableNotice])).
Proof.
  unfold trace, dispatch. split; [| split].
  - rewrite sendTestOnClick_run. cbn -[trim].
    destruct (isEmpty (trim (webhookUrl (settings p)))); [reflexivity |].
    cbn -[trim]. destruct (fetch h _) as [r | e]; [now destruct (ok r) | reflexivity].
  - intros sn. now rewrite !sendTestOnClick_run.
  - intros Hu. cbv zeta. pose proof (isEmpty_false _ Hu) as Hi.
    rewrite sendTestOnClick_run. cbn -[trim]. rewrite Hi. split.
    + intros r Hr Hok. rewrite Hr, Hok. split; [reflexivity |].
      now exists (lit "Simple Webhook: test failed (HTTP "), (lit ").").
    + intros e Hr. rewrite Hr. now split.
Qed.

Lemma send_test_always_answers_witness :
  let req := postRequest hookUrl
               (testBody (getName brokenHost) (toISOString brokenHost)) in
  let r := {| status := 500; statusText := lit "Internal Server Error" |} in
  showNotices (settings scenarioPlugin) = false /\
  trim (webhookUrl (settings scenarioPlugin)) <> [] /\
  fetch brokenHost req = Resolved r /\
  ok r = false /\
  notices (trace (dispatch SendTestOp) brokenHost scenarioPlugin)
    = [lit "Simple Webhook: test failed (HTTP 500)."].
Proof.
  intros req r.
  assert (Hu : trim (webhookUrl (settings scenarioPlugin)) <> [])
    by (vm_compute; discriminate).
  repeat (split; [first [reflexivity | exact Hu] |]).
  exact (proj1 (proj1 (proj2 (proj2 (send_test_always_answers brokenHost scenarioPlugin)) Hu)
                  r eq_refl eq_refl)).
Defined.

(** A workspace trigger without a file does nothing at all: a
    file-open without a file, and a leaf change without a leaf, without a
    view or on a view without a file, have no effect, and neither has a
    trigger whose toggle is off; in particular none of them shows the
    configuration-missing notice, whatever the URL and the notices flag
    are. *)
Lemma workspace_triggers_need_a_file (h : Host) (p : Plugin) :
  dispatch (FileOpenOp None) h p = (tt, p, [])
  /\ dispatch (ActiveLeafChangeOp None) h p = (tt, p, [])
  /\ dispatch (ActiveLeafChangeOp (Some {| view := None |})) h p = (tt, p, [])
  /\ dispatch (ActiveLeafChangeOp (Some {| view := Some {| file := None |} |})) h p
     = (tt, p, [])
  /\ (forall f : option TFile,
        dispatch (FileOpenOp f) h (withSettings (set_sendOnFileOpen false) p)
        = (tt, withSettings (set_sendOnFileOpen false) p, []))
  /\ (forall leaf : option WorkspaceLeaf,
        dispatch (ActiveLeafChangeOp leaf) h (withSettings (set_sendOnLeafChange false) p)
        = (tt, withSettings (set_sendOnLeafChange false) p, [])).
Proof.
  unfold dispatch, onFileOpen, onActiveLeafChange, bind, this_settings, ret.
  cbn -[trim].
  destruct (sendOnFileOpen (settings p)), (sendOnLeafChange (settings p));
    repeat split.
Qed.

(** ** Events are not merged *)

Section Bursts.

Variable p : Plugin.

Hypothesis He : enabled (settings p) = true.
Hypothesis Ha : autoMode (settings p) = true.
Hypothesis Hu : trim (webhookUrl (settings p)) <> [].

Lemma file_event_posts_one (h : Host) (ev : VaultEvent) :
  onFile ev ->
  List.length (posts (trace (dispatch (VaultOp ev)) h p)) = 1
  /\ after (dispatch (VaultOp ev)) h p = p.
Proof.
  intros Hf. split; [| now apply sending_run].
  pose proof (urlMissing_configured _ Hu) as Hm.
  pose proof (isEmpty_false _ Hu) as Hi.
  unfold onFile in Hf.
  destruct ev as [file | file | file | file old]; simpl in Hf;
    (destruct file as [f | d]; [| now elim Hf]);
    unfold trace, dispatch, onVaultEvent;
    rewrite ?handleFileEvent_run, ?handleRenameEvent_run; cbn -[trim];
    rewrite He, Ha, Hm; cbn -[trim]; now rewrite posts_delivery, Hi.
Qed.

Lemma burst_posts (evs : list (Host * VaultEvent)) :
  Forall (fun he => onFile (snd he)) evs ->
  List.length (posts (sessionTrace (vaultOps evs) p)) = List.length evs
  /\ session (vaultOps evs) p = p.
Proof.
  induction evs as [| [h ev] rest IH]; intros Hall; [now split |].
  inversion Hall as [| ? ? Hev Hrest]; subst.
  destruct (file_event_posts_one h ev Hev) as [Hone Hsame].
  destruct (IH Hrest) as [Hlen Hp].
  unfold vaultOps in *. cbn [map fst snd sessionTrace session].
  rewrite Hsame, posts_app, length_app, Hone, Hlen, Hp. now split.
Qed.

End Bursts.

(** X16. Events are neither merged nor dropped: with both flags on and the
    URL set, a burst of vault events on files issues one request per
    event, however many there are and whatever the host answers, and
    leaves the plugin as it was. *)
Theorem every_event_is_sent
    (evs : list (Host * VaultEvent)) (p : Plugin) :
  enabled (settings p) = true ->
  autoMode (settings p) = true ->
  trim (webhookUrl (settings p)) <> [] ->
  Forall (fun he => onFile (snd he)) evs ->
  List.length (posts (sessionTrace (vaultOps evs) p)) = List.length evs
  /\ session (vaultOps evs) p = p.
Proof.
  intros He Ha Hu Hall. now apply burst_posts.
Qed.

(** The same note saved twice, the second time offline: two requests. *)
Lemma every_event_is_sent_witness :
  let evs := [(scenarioHost, on_modify (File noteFile));
              (offlineHost, on_modify (File noteFile))] in
  enabled (settings scenarioPlugin) = true /\
  autoMode (settings scenarioPlugin) = true /\
  trim (webhookUrl (settings scenarioPlugin)) <> [] /\
  Forall (fun he => onFile (snd he)) evs /\
  List.length (posts (sessionTrace (vaultOps evs) scenarioPlugin)) = 2.
Proof.
  intros evs.
  assert (Hu : trim (webhookUrl (settings scenarioPlugin)) <> [])
    by (vm_compute; discriminate).
  assert (Hall : Forall (fun he => onFile (snd he)) evs)
    by (repeat constructor).
  repeat (split; [first [reflexivity | exact Hu | exact Hall] |]).
  exact (proj1 (every_event_is_sent evs scenarioPlugin eq_refl eq_refl Hu Hall)).
Defined.

(** ** Names from paths *)

(** X17. [getNameFromPath] of a path [dir/name], where [name] holds no
    '/', is [name], whatever [dir] is; a path without '/' is its own name,
    and a path ending in '/' has the empty name.  The fall-back to the
    whole path is never taken: the split always has a last segment. *)
Theorem getNameFromPath_of_parts (dir seg : jsstring) :
  ~ In slash seg ->
  getNameFromPath (dir ++ slash :: seg) = seg
  /\ getNameFromPath seg = seg
  /\ getNameFromPath (dir ++ [slash]) = []
  /\ (forall q : jsstring,
        nth_error (split slash q) (List.length (split slash q) - 1)
        = Some (getNameFromPath q)).
Proof.
  intros Hseg. split; [| split; [| split]].
  - apply (finalSegment_unique _ _ (dir ++ slash :: seg)).
    + apply getNameFromPath_finalSegment.
    + split; [exact Hseg | right; now exists dir].
  - apply (finalSegment_unique _ _ seg).
    + apply getNameFromPath_finalSegment.
    + split; [exact Hseg | now left].
  - apply (finalSegment_unique _ _ (dir ++ [slash])).
    + apply getNameFromPath_finalSegment.
    + split; [intros [] | right; now exists dir].
  - intros q. rewrite getNameFromPath_last.
    apply nth_error_last, split_nonempty.
Qed.

Lemma getNameFromPath_of_parts_witness :
  ~ In slash (lit "c.md") /\
  getNameFromPath (lit "a/b" ++ slash :: lit "c.md") = lit "c.md" /\
  lit "a/b" ++ slash :: lit "c.md" = lit "a/b/c.md".
Proof.
  assert (Hc : ~ In slash (lit "c.md")).
  { vm_compute. intros [H | [H | [H | [H | []]]]]; discriminate H. }
  split; [exact Hc |]. split; [| reflexivity].
  exact (proj1 (getNameFromPath_of_parts (lit "a/b") (lit "c.md") Hc)).
Defined.
